(** * check_elasticsearch_shards: a shallow embedding and its properties

    The Nagios plugin [check_elasticsearch_shards.py] fetches the index
    catalog of an Elasticsearch cluster, parses it into rows, and reports
    the indices whose primary shards are too few or too big.

    The embedding follows the script function by function, with the
    meaning Python 3 gives it.  Python [str] values are [string]s (exact
    for ASCII text), Python [int]s are [Z], Python [float]s are the binary64
    numbers of [PrimFloat].  A computation that may print, call [sys.exit]
    or raise is a value of the monad [M] below. *)

From Stdlib Require Import Bool List ZArith Lia Ascii String Floats.
Import ListNotations.

Set Warnings "-inexact-float".

Local Open Scope string_scope.
Local Open Scope Z_scope.

(** ** Characters *)

Definition code (c : ascii) : N := N_of_ascii c.

(** [str.isspace] on ASCII: TAB, LF, VT, FF, CR, the four separators
    FS, GS, RS, US, and the space.  This is the set [str.split()] splits
    on. *)
Definition isspace (c : ascii) : bool :=
  ((9 <=? code c) && (code c <=? 13) || (28 <=? code c) && (code c <=? 32))%N.

(** The C-locale white space that [int()] and [float()] strip. *)
Definition isspace_c (c : ascii) : bool :=
  ((9 <=? code c) && (code c <=? 13) || (code c =? 32))%N.

Definition isdigit (c : ascii) : bool :=
  ((48 <=? code c) && (code c <=? 57))%N.

Definition digit_value (c : ascii) : Z := Z.of_N (code c) - 48.

(** ASCII lower-casing, as used for the case-insensitive [inf]/[nan]. *)
Definition lower (c : ascii) : ascii :=
  if ((65 <=? code c) && (code c <=? 90))%N then ascii_of_N (code c + 32) else c.

(** ** The [str] methods the script calls *)

Module Str.

Fixpoint all (p : ascii -> bool) (s : string) : bool :=
  match s with
  | EmptyString => true
  | String c s' => p c && all p s'
  end.

Definition is_empty (s : string) : bool :=
  match s with EmptyString => true | String _ _ => false end.

(** [s.endswith(suffix)]: some tail of [s] is [suffix]. *)
Fixpoint endswith (s suffix : string) : bool :=
  if String.eqb s suffix then true
  else match s with
       | EmptyString => false
       | String _ s' => endswith s' suffix
       end.

(** [sub in s]: [sub] is a prefix of some tail of [s]. *)
Fixpoint contains (sub s : string) : bool :=
  if String.prefix sub s then true
  else match s with
       | EmptyString => false
       | String _ s' => contains sub s'
       end.

(** [s.replace(old, new)]: every occurrence of [old], found scanning from
    the left without overlap, becomes [new].  [skip] counts the characters
    of a match that are still to be dropped. *)
Fixpoint replace_from (old new : string) (skip : nat) (s : string) : string :=
  match s with
  | EmptyString => if is_empty old then new else EmptyString
  | String c s' =>
      match skip with
      | S k => replace_from old new k s'
      | O =>
          if String.prefix old s
          then new ++ (if is_empty old
                       then String c (replace_from old new O s')
                       else replace_from old new (Nat.pred (String.length old)) s')
          else String c (replace_from old new O s')
      end
  end.

Definition replace (s old new : string) : string := replace_from old new O s.

(** [s.split(sep)] for a one-character separator: the pieces between the
    separators, empty pieces included; never the empty list. *)
Fixpoint split_on (sep : ascii) (s : string) : list string :=
  match s with
  | EmptyString => [EmptyString]
  | String c s' =>
      if Ascii.eqb c sep then EmptyString :: split_on sep s'
      else match split_on sep s' with
           | w :: ws => String c w :: ws
           | [] => [String c EmptyString]
           end
  end.

(** [s.split()]: the maximal runs of non-space characters.  [word] is the
    run read so far. *)
Fixpoint split_from (word : string) (s : string) : list string :=
  match s with
  | EmptyString => if is_empty word then [] else [word]
  | String c s' =>
      if isspace c
      then (if is_empty word then split_from EmptyString s'
            else word :: split_from EmptyString s')
      else split_from (word ++ String c EmptyString) s'
  end.

Definition split (s : string) : list string := split_from EmptyString s.

(** [sep.join(l)]. *)
Definition join (sep : string) (l : list string) : string := String.concat sep l.

Fixpoint lstrip (p : ascii -> bool) (s : string) : string :=
  match s with
  | EmptyString => EmptyString
  | String c s' => if p c then lstrip p s' else s
  end.

Fixpoint rstrip (p : ascii -> bool) (s : string) : string :=
  match s with
  | EmptyString => EmptyString
  | String c s' =>
      match rstrip p s' with
      | EmptyString => if p c then EmptyString else String c EmptyString
      | r => String c r
      end
  end.

Definition strip (p : ascii -> bool) (s : string) : string := rstrip p (lstrip p s).

Fixpoint map (f : ascii -> ascii) (s : string) : string :=
  match s with
  | EmptyString => EmptyString
  | String c s' => String (f c) (map f s')
  end.

End Str.

(** ** [int()] and [float()] on strings *)

Module Builtins.

Definition is_underscore (c : ascii) : bool := Ascii.eqb c "_".

(** An underscore may only stand between two digits. [prev] is the
    character before the one examined. *)
Fixpoint underscores_from (prev : ascii) (s : string) : bool :=
  match s with
  | EmptyString => negb (is_underscore prev)
  | String c s' =>
      (if is_underscore c then isdigit prev
       else if is_underscore prev then isdigit c else true)
      && underscores_from c s'
  end.

Definition underscores_ok (s : string) : bool := underscores_from Ascii.zero s.

Fixpoint remove_underscores (s : string) : string :=
  match s with
  | EmptyString => EmptyString
  | String c s' =>
      if is_underscore c then remove_underscores s'
      else String c (remove_underscores s')
  end.

(** The value of a run of decimal digits, most significant first. *)
Fixpoint digits_from (acc : Z) (s : string) : Z :=
  match s with
  | EmptyString => acc
  | String c s' => digits_from (10 * acc + digit_value c) s'
  end.

Definition digits_to_Z (s : string) : Z := digits_from 0 s.

(** An optional sign: is it a minus, and what follows it. *)
Definition split_sign (s : string) : bool * string :=
  match s with
  | String "+" r => (false, r)
  | String "-" r => (true, r)
  | _ => (false, s)
  end.

(** The leading digits of [s] and what is left. *)
Fixpoint span_digits (s : string) : string * string :=
  match s with
  | EmptyString => (EmptyString, EmptyString)
  | String c s' =>
      if isdigit c
      then let (d, r) := span_digits s' in (String c d, r)
      else (EmptyString, s)
  end.

(** [int(s)]: white space, an optional sign, then digits that may be
    grouped by single underscores; [None] stands for [ValueError]. *)
Definition py_int (s : string) : option Z :=
  let (neg, body) := split_sign (Str.strip isspace_c s) in
  if negb (Str.is_empty body)
     && Str.all (fun c => isdigit c || is_underscore c) body
     && underscores_ok body
  then let n := digits_to_Z (remove_underscores body) in
       Some (if neg then - n else n)
  else None.

(** [float(n)] for an [int]: the nearest binary64 number, ties to even;
    [None] stands for [OverflowError]. *)
Definition float_of_int (n : Z) : option float :=
  match binary_normalize prec emax n 0 false with
  | S754_infinity _ => None
  | x => Some (SF2Prim x)
  end.

(** The binary64 number nearest to [m * 10 ^ e], ties to even, for
    [0 <= m]. *)
Definition round_decimal (m e : Z) : float :=
  match m with
  | Zpos p =>
      if 0 <=? e
      then SF2Prim (binary_normalize prec emax (m * 10 ^ e) 0 false)
      else match 10 ^ (- e) with
           | Zpos d => SF2Prim (SFdiv prec emax (S754_finite false p 0)
                                                (S754_finite false d 0))
           | _ => nan
           end
  | _ => PrimFloat.zero
  end.

(** A decimal literal without sign: digits with an optional point and an
    optional exponent, at least one digit before the exponent.  The
    result is the pair [(m, e)] of the number [m * 10 ^ e]. *)
Definition parse_decimal (body : string) : option (Z * Z) :=
  let (ip, r1) := span_digits body in
  let (fp, r2) := match r1 with
                  | String "." r => span_digits r
                  | _ => (EmptyString, r1)
                  end in
  if Str.is_empty ip && Str.is_empty fp then None
  else
    let m := digits_to_Z (ip ++ fp) in
    let e := - Z.of_nat (String.length fp) in
    match r2 with
    | EmptyString => Some (m, e)
    | String c r3 =>
        if Ascii.eqb (lower c) "e"
        then let (eneg, ed) := split_sign r3 in
             if negb (Str.is_empty ed) && Str.all isdigit ed
             then let x := digits_to_Z ed in
                  Some (m, e + (if eneg then - x else x))
             else None
        else None
    end.

Definition inf_or_nan (body : string) : option float :=
  let b := Str.map lower body in
  if String.eqb b "inf" || String.eqb b "infinity" then Some infinity
  else if String.eqb b "nan" then Some nan
  else None.

(** [float(s)]: underscores between digits are dropped, white space is
    stripped, then a sign and either [inf], [infinity], [nan] or a decimal
    literal; [None] stands for [ValueError]. *)
Definition py_float (s : string) : option float :=
  if underscores_ok s then
    let (neg, body) := split_sign (Str.strip isspace_c (remove_underscores s)) in
    let signed (x : float) := if neg then (- x)%float else x in
    match inf_or_nan body with
    | Some x => Some (signed x)
    | None =>
        match parse_decimal body with
        | Some (m, e) => Some (signed (round_decimal m e))
        | None => None
        end
    end
  else None.

End Builtins.

Import Builtins.

(** ** Effects: printing, [sys.exit] and exceptions *)

(** The exceptions that can leave the script; [ClientError] stands for
    whatever the TLS and Elasticsearch libraries raise. *)
Inductive exn : Type :=
| ValueError
| IndexError
| ZeroDivisionError
| OverflowError
| ClientError.

(** An argument of the [%] operator. *)
Inductive arg : Type :=
| ArgStr (s : string)
| ArgInt (n : Z)
| ArgFloat (x : float).

(** What [print(template % args)] writes.  How [%s] and [%d] render their
    argument is Python's business; the line is kept as the template and its
    arguments. *)
Record line : Type := Fmt { template : string; args : list arg }.

Inductive outcome (A : Type) : Type :=
| Ret (a : A)
| Exit (status : Z)
| Raise (e : exn).

Arguments Ret {A} a.
Arguments Exit {A} status.
Arguments Raise {A} e.

(** A run: the lines printed, and how the run ended. *)
Record M (A : Type) : Type := Run { stdout : list line; ended : outcome A }.

Arguments Run {A} stdout ended.
Arguments stdout {A} m.
Arguments ended {A} m.

Definition ret {A} (a : A) : M A := Run [] (Ret a).
Definition raise {A} (e : exn) : M A := Run [] (Raise e).
Definition sys_exit {A} (status : Z) : M A := Run [] (Exit status).
Definition print (l : line) : M unit := Run [l] (Ret tt).

Definition bind {A B} (m : M A) (k : A -> M B) : M B :=
  match ended m with
  | Ret a => Run (stdout m ++ stdout (k a)) (ended (k a))
  | Exit status => Run (stdout m) (Exit status)
  | Raise e => Run (stdout m) (Raise e)
  end.

Notation "x <- m ;; k" := (bind m (fun x => k))
  (at level 61, m at next level, right associativity).
Notation "m ;;; k" := (bind m (fun _ => k))
  (at level 61, right associativity).

(** A [for] loop over a list whose body updates the loop's variables [s]. *)
Fixpoint for_in {A S} (xs : list A) (body : A -> S -> M S) (s : S) : M S :=
  match xs with
  | [] => ret s
  | x :: xs' => s' <- body x s ;; for_in xs' body s'
  end.

(** The status the interpreter hands to the operating system: the argument
    of [sys.exit], 0 when the script runs off its end, 1 after the traceback
    of an exception nobody caught. *)
Definition exit_status {A} (o : outcome A) : Z :=
  match o with
  | Ret _ => 0
  | Exit status => status
  | Raise _ => 1
  end.

Definition int (s : string) : M Z :=
  match py_int s with
  | Some n => ret n
  | None => raise ValueError
  end.

Definition float (s : string) : M PrimFloat.float :=
  match py_float s with
  | Some x => ret x
  | None => raise ValueError
  end.

(** [l[i]] for a constant index [i >= 0]. *)
Definition getitem {A} (l : list A) (i : nat) : M A :=
  match nth_error l i with
  | Some x => ret x
  | None => raise IndexError
  end.

(** [x / n] for a float [x] and an int [n]: [n] is first converted. *)
Definition truediv (x : PrimFloat.float) (n : Z) : M PrimFloat.float :=
  match float_of_int n with
  | None => raise OverflowError
  | Some d => if n =? 0 then raise ZeroDivisionError else ret (x / d)%float
  end.

(** [x > y] on floats. *)
Definition gt (x y : PrimFloat.float) : bool := PrimFloat.ltb y x.

(** ** The script *)

Definition NAGIOS_OK : Z := 0.
Definition NAGIOS_WARNING : Z := 1.
Definition NAGIOS_CRITICAL : Z := 2.
Definition NAGIOS_UNKNOWN : Z := 3.

Definition get_gb_size_from_string (str : string) : M PrimFloat.float :=
  if Str.endswith str "gb" then
    x <- float (Str.replace str "gb" EmptyString) ;; ret x
  else if Str.endswith str "tb" then
    x <- float (Str.replace str "tb" EmptyString) ;; ret (x * 1000)%float
  else if Str.endswith str "mb" then
    x <- float (Str.replace str "mb" EmptyString) ;; ret (x * 0.001)%float
  else if Str.endswith str "kb" then
    x <- float (Str.replace str "kb" EmptyString) ;; ret (x * 0.001 * 0.001)%float
  else if Str.endswith str "b" then
    x <- float (Str.replace str "b" EmptyString) ;; ret (x * 0.001 * 0.001 * 0.001)%float
  else
    print (Fmt "ERROR: unexpected. size string: %s" [ArgStr str]) ;;;
    sys_exit NAGIOS_CRITICAL.

(** A row of [index_list]: the three-element list [[index, pri,
    pri_store_size]], all three still text. *)
Record IndexRecord : Type := Row {
  index : string;
  pri : string;
  pri_store_size : string
}.

Definition newline : ascii := "010".
Definition dquote : ascii := "034".

Definition parse_index_info (es_index_info : string) : M (list IndexRecord) :=
  for_in (Str.split_on newline es_index_info)
    (fun line index_list =>
       if String.eqb line EmptyString || Str.contains " index " line || Str.contains " close " line
       then ret index_list
       else
         let line := Str.join " " (Str.split line) in
         let l := Str.split line in
         index <- getitem l 2 ;;
         pri <- getitem l 3 ;;
         pri_store_size <- getitem l 7 ;;
         ret (index_list ++ [Row index pri pri_store_size])%list)
    [].

Definition confirm_es_shard_count (es_host es_port : string)
    (es_index_list : list IndexRecord) (min_shard_count : Z) : M (list string) :=
  for_in es_index_list
    (fun l failed_index_list =>
       let index_name := index l in
       number_of_shards <- int (pri l) ;;
       if number_of_shards <? min_shard_count
       then ret (failed_index_list ++ [index_name])%list
       else ret failed_index_list)
    [].

Definition confirm_es_shard_size (es_host es_port : string)
    (es_index_list : list IndexRecord) (max_shard_size : PrimFloat.float)
    : M (list string) :=
  for_in es_index_list
    (fun i failed_index_list =>
       let index_name := index i in
       number_of_shards <- int (pri i) ;;
       let pri_store_size := pri_store_size i in
       size <- get_gb_size_from_string pri_store_size ;;
       avg_shard_size_gb <- truediv size number_of_shards ;;
       if gt avg_shard_size_gb max_shard_size
       then ret (failed_index_list ++ [index_name])%list
       else ret failed_index_list)
    [].

(** The [--action] choices. *)
Inductive Action : Type := check_shard_size | check_shard_count.

(** The namespace [parse_args] returns. *)
Record Namespace : Type := Args {
  es_host : string;
  es_port : string;
  es_user : string;
  es_pass : string;
  es_index : string;
  ca_file : string;
  action : Action;
  min_shard_count : string;
  max_shard_size : string
}.

(** A call into the libraries the script imports returns, or raises. *)
Inductive attempt (A : Type) : Type :=
| Done (a : A)
| Failed (e : exn).

Arguments Done {A} a.
Arguments Failed {A} e.

Definition call {A} (r : attempt A) : M A :=
  match r with
  | Done a => ret a
  | Failed e => raise e
  end.

(** What lies outside the script: building the TLS context from the CA
    file, and the cluster answering the catalog request of the client that
    the arguments configure. *)
Record Outside : Type := World {
  create_default_context : string -> attempt unit;
  cat_indices : Namespace -> attempt string
}.

Definition len {A} (l : list A) : Z := Z.of_nat (List.length l).

(** The script from the parsed arguments on. *)
Definition main (world : Outside) (l : Namespace) : M unit :=
  let es_host := es_host l in
  let es_port := es_port l in
  let es_index := es_index l in
  let ca_file := ca_file l in
  let action := action l in
  min_shard_count <- int (min_shard_count l) ;;
  max_shard_size <- get_gb_size_from_string (max_shard_size l) ;;
  context <- call (create_default_context world ca_file) ;;
  port <- int es_port ;;
  es_index_cat_raw <- call (cat_indices world l) ;;
  es_index_cat_list <- parse_index_info es_index_cat_raw ;;
  match action with
  | check_shard_size =>
      failed_index_list <-
        confirm_es_shard_size es_host es_port es_index_cat_list max_shard_size ;;
      if negb (len failed_index_list =? 0) then
        (if len failed_index_list =? 1 then
           first <- getitem failed_index_list 0 ;;
           print (Fmt "CRITICAL: Index %s has shards bigger than %s GB!"
                      [ArgStr first; ArgFloat max_shard_size])
         else if 1 <? len failed_index_list then
           print (Fmt ("CRITICAL: %d indices have shards bigger than %s GB!"
                       ++ String newline "%s")
                      [ArgInt (len failed_index_list);
                       ArgFloat max_shard_size;
                       ArgStr (Str.join ", " failed_index_list)])
         else ret tt) ;;;
        sys_exit NAGIOS_CRITICAL
      else
        print (Fmt ("OK: All shards for indices with pattern " ++ String dquote
                    ("%s" ++ String dquote " are less then %s GB."))
                   [ArgStr es_index; ArgFloat max_shard_size]) ;;;
        sys_exit NAGIOS_OK
  | check_shard_count =>
      failed_index_list <-
        confirm_es_shard_count es_host es_port es_index_cat_list min_shard_count ;;
      if negb (len failed_index_list =? 0) then
        (if len failed_index_list =? 1 then
           first <- getitem failed_index_list 0 ;;
           print (Fmt "CRITICAL: Index %s has only 1 primary shard which is less then minimum shard count %d!"
                      [ArgStr first; ArgInt min_shard_count])
         else if 1 <? len failed_index_list then
           print (Fmt ("CRITICAL: %d indices have less primary shards then minimum shard count %d!"
                       ++ String newline "%s")
                      [ArgInt (len failed_index_list);
                       ArgInt min_shard_count;
                       ArgStr (Str.join ", " failed_index_list)])
         else ret tt) ;;;
        sys_exit NAGIOS_CRITICAL
      else
        print (Fmt ("OK: All shards or indices with pattern " ++ String dquote
                    ("%s" ++ String dquote " have at least %d shard count."))
                   [ArgStr es_index; ArgInt min_shard_count]) ;;;
        sys_exit NAGIOS_OK
  end.

(** ** The two readings of a row that the thresholds are about *)

(** The primary-shard count of a row, when [pri] is an integer. *)
Definition shard_count (r : IndexRecord) : option Z := py_int (pri r).

(** The size parser seen as a partial function. *)
Definition parse_size (token : string) : option PrimFloat.float :=
  match ended (get_gb_size_from_string token) with
  | Ret x => Some x
  | _ => None
  end.

(** [parse_size(primary_store_size) / primary_shard_count] of a row whose
    count is a positive integer and whose size token parses. *)
Definition avg_shard_size_gb (r : IndexRecord) : option PrimFloat.float :=
  match shard_count r, parse_size (pri_store_size r) with
  | Some n, Some x =>
      if 0 <? n
      then match float_of_int n with
           | Some d => Some (x / d)%float
           | None => None
           end
      else None
  | _, _ => None
  end.

Definition too_few (min_count : Z) (r : IndexRecord) : bool :=
  match shard_count r with
  | Some n => n <? min_count
  | None => false
  end.

Definition too_big (max_size_gb : PrimFloat.float) (r : IndexRecord) : bool :=
  match avg_shard_size_gb r with
  | Some avg => gt avg max_size_gb
  | None => false
  end.

Definition defined {A} (o : option A) : bool :=
  match o with Some _ => true | None => false end.

(** ** The rows of the catalog *)

Definition nonspace (c : ascii) : bool := negb (isspace c).

(** A field: a non-empty word without white space. *)
Definition is_field (f : string) : Prop :=
  Str.is_empty f = false /\ Str.all nonspace f = true.

(** A line the parser passes over: empty, or with one of the two marks. *)
Definition skipped (line : string) : bool :=
  String.eqb line EmptyString
  || Str.contains " index " line
  || Str.contains " close " line.

(** The lines of the catalog text the parser reads a row from. *)
Definition data_lines (raw : string) : list string :=
  filter (fun line => negb (skipped line)) (Str.split_on newline raw).

(** The white-space separated fields of a line. *)
Definition fields (line : string) : list string := Str.split line.

(** The row made of the fields 2, 3 and 7 of a line. *)
Definition row_of (line : string) : IndexRecord :=
  Row (nth 2 (fields line) EmptyString)
      (nth 3 (fields line) EmptyString)
      (nth 7 (fields line) EmptyString).

Definition has_columns (line : string) : bool :=
  (8 <=? List.length (fields line))%nat.

(** The body of the loop of [parse_index_info]. *)
Definition parse_line (line : string) (index_list : list IndexRecord)
    : M (list IndexRecord) :=
  if String.eqb line EmptyString || Str.contains " index " line || Str.contains " close " line
  then ret index_list
  else
    let line := Str.join " " (Str.split line) in
    let l := Str.split line in
    index <- getitem l 2 ;;
    pri <- getitem l 3 ;;
    pri_store_size <- getitem l 7 ;;
    ret (index_list ++ [Row index pri pri_store_size])%list.

(** ** Size tokens *)

(** A character of a decimal numeral: a digit or the point. *)
Definition numeral_char (c : ascii) : bool := isdigit c || Ascii.eqb c ".".

(** A non-negative decimal numeral: digits, optionally followed by a point
    and digits, with at least one digit in all. *)
Definition decimal_numeral (s : string) : bool :=
  let (ip, r) := span_digits s in
  match r with
  | EmptyString => negb (Str.is_empty ip)
  | String c fp =>
      Ascii.eqb c "." && Str.all isdigit fp
      && negb (Str.is_empty ip && Str.is_empty fp)
  end.

(** The string ends in one of the unit suffixes. *)
Definition recognized (s : string) : bool :=
  Str.endswith s "gb" || Str.endswith s "tb" || Str.endswith s "mb"
  || Str.endswith s "kb" || Str.endswith s "b".

(** What the size parser prints when it refuses a token. *)
Definition refusal (token : string) : line :=
  Fmt "ERROR: unexpected. size string: %s" [ArgStr token].

(** ** How runs end *)

(** A run that printed nothing and did not exit. *)
Inductive silent {A} : M A -> Prop :=
| silent_ret (a : A) : silent (ret a)
| silent_raise (e : exn) : silent (raise e).

(** A run that is silent, or is the size parser's refusal of a token. *)
Inductive guarded {A} : M A -> Prop :=
| guarded_ret (a : A) : guarded (ret a)
| guarded_raise (e : exn) : guarded (raise e)
| guarded_refused (token : string) :
    guarded (Run [refusal token] (Exit NAGIOS_CRITICAL)).

(** The line the script prints for a non-empty list of failed indices. *)
Definition critical_line (a : Action) (min_count : Z) (max_size_gb : PrimFloat.float)
    (failed : list string) : line :=
  match a, failed with
  | check_shard_size, [name] =>
      Fmt "CRITICAL: Index %s has shards bigger than %s GB!"
          [ArgStr name; ArgFloat max_size_gb]
  | check_shard_size, _ =>
      Fmt ("CRITICAL: %d indices have shards bigger than %s GB!"
           ++ String newline "%s")
          [ArgInt (len failed); ArgFloat max_size_gb; ArgStr (Str.join ", " failed)]
  | check_shard_count, [name] =>
      Fmt "CRITICAL: Index %s has only 1 primary shard which is less then minimum shard count %d!"
          [ArgStr name; ArgInt min_count]
  | check_shard_count, _ =>
      Fmt ("CRITICAL: %d indices have less primary shards then minimum shard count %d!"
           ++ String newline "%s")
          [ArgInt (len failed); ArgInt min_count; ArgStr (Str.join ", " failed)]
  end.

(** The line the script prints when no index failed. *)
Definition ok_line (a : Action) (pattern : string) (min_count : Z)
    (max_size_gb : PrimFloat.float) : line :=
  match a with
  | check_shard_size =>
      Fmt ("OK: All shards for indices with pattern " ++ String dquote
           ("%s" ++ String dquote " are less then %s GB."))
          [ArgStr pattern; ArgFloat max_size_gb]
  | check_shard_count =>
      Fmt ("OK: All shards or indices with pattern " ++ String dquote
           ("%s" ++ String dquote " have at least %d shard count."))
          [ArgStr pattern; ArgInt min_count]
  end.

(** The evaluator the action selects. *)
Definition evaluate (l : Namespace) (records : list IndexRecord)
    (min_count : Z) (max_size_gb : PrimFloat.float) : M (list string) :=
  match action l with
  | check_shard_size =>
      confirm_es_shard_size (es_host l) (es_port l) records max_size_gb
  | check_shard_count =>
      confirm_es_shard_count (es_host l) (es_port l) records min_count
  end.

(** The report of a run: what the script prints and how it exits once the
    evaluator has returned. *)
Definition report (l : Namespace) (min_count : Z) (max_size_gb : PrimFloat.float)
    (failed : list string) : M unit :=
  match failed with
  | [] => Run [ok_line (action l) (es_index l) min_count max_size_gb] (Exit NAGIOS_OK)
  | _ => Run [critical_line (action l) min_count max_size_gb failed]
             (Exit NAGIOS_CRITICAL)
  end.

(** How a run of the script can end: with the OK line and status 0, with
    a CRITICAL line or the size parser's refusal and status 2, or with an
    exception that nothing catches. *)
Inductive run_end : M unit -> Prop :=
| end_ok (l : line) :
    String.prefix "OK: " (template l) = true ->
    run_end (Run [l] (Exit NAGIOS_OK))
| end_critical (l : line) :
    String.prefix "CRITICAL: " (template l) = true ->
    run_end (Run [l] (Exit NAGIOS_CRITICAL))
| end_refused (token : string) :
    run_end (Run [refusal token] (Exit NAGIOS_CRITICAL))
| end_uncaught (e : exn) :
    run_end (raise e).

(** ** Sample inputs *)

(** A catalog as the cluster prints it: the header, two open indices, a
    closed one, and the final line break. *)
Definition sample_catalog : string :=
  Str.join (String newline EmptyString)
    ["health status index  pri rep docs.count store.size pri.store.size creation.date.string";
     "green  open   logs-a   1   1        100      2.4gb          1.2gb 2020-01-01T00:00:00.000Z";
     "green  open   logs-b   2   1        100      240gb          120gb 2020-01-02T00:00:00.000Z";
     "       close  logs-c";
     EmptyString].

Definition sample_rows : list IndexRecord :=
  [Row "logs-a" "1" "1.2gb"; Row "logs-b" "2" "120gb"].

(** An open index without an assigned primary: the three size columns are
    blank. *)
Definition red_catalog : string :=
  "red    open   logs-r   5   1                                        2020-01-03T00:00:00.000Z".

(** A catalog line that reports no primary shard. *)
Definition zero_catalog : string :=
  "green  open   logs-z   0   1          0         0b             0b 2020-01-04T00:00:00.000Z".

Definition zero_row : IndexRecord := Row "logs-z" "0" "0b".

Definition sample_args (a : Action) (min_count max_size : string) : Namespace :=
  Args "localhost" "9200" "monitoring_user" "secret" "logs-*" EmptyString
       a min_count max_size.

(** A reachable cluster that answers with [text]. *)
Definition sample_cluster (text : string) : Outside :=
  World (fun _ => Done tt) (fun _ => Done text).

(** ** The letters of the unit suffixes *)

Definition unit_letter (c : ascii) : bool :=
  Ascii.eqb c "b" || Ascii.eqb c "g" || Ascii.eqb c "k"
  || Ascii.eqb c "m" || Ascii.eqb c "t".

(** A text in which none of the letters b, g, k, m, t occurs. *)
Definition unit_free (s : string) : bool :=
  Str.all (fun c => negb (unit_letter c)) s.

(** ** Line breaks in what is printed *)

(** The number of line breaks in a text. *)
Fixpoint newlines (s : string) : nat :=
  match s with
  | EmptyString => O
  | String c s' => ((if Ascii.eqb c newline then 1 else 0) + newlines s')%nat
  end.

(** [%s] puts a string into the message as it is; what [%d] and the [%s]
    of a float put there contains no line break. *)
Definition arg_newlines (a : arg) : nat :=
  match a with
  | ArgStr s => newlines s
  | ArgInt _ => O
  | ArgFloat _ => O
  end.

(** The line breaks inside a printed message, not counting the one that
    [print] puts at its end: the message takes one line more than that. *)
Definition line_breaks (l : line) : nat :=
  (newlines (template l) + list_sum (List.map arg_newlines (args l)))%nat.

(** A text that is one line. *)
Definition newline_free (s : string) : bool :=
  Str.all (fun c => negb (Ascii.eqb c newline)) s.

(** What a run of the script is: the report on the list the evaluator
    returned, the size parser's refusal of a token, or an exception that
    nothing catches. *)
Inductive run_shape (l : Namespace) : M unit -> Prop :=
| shape_report (min_count : Z) (max_size_gb : PrimFloat.float)
    (failed : list string) :
    run_shape l (report l min_count max_size_gb failed)
| shape_refused (token : string) :
    run_shape l (Run [refusal token] (Exit NAGIOS_CRITICAL))
| shape_uncaught (e : exn) :
    run_shape l (raise e).

(** An index above the default bound, followed by an open index whose size
    columns are blank. *)
Definition mixed_catalog : string :=
  "green  open   logs-b   2   1        100      240gb          120gb 2020-01-02T00:00:00.000Z"
  ++ String newline red_catalog.

(** The arguments of a size check with a pattern that holds a line break. *)
Definition two_line_pattern_args : Namespace :=
  Args "localhost" "9200" "monitoring_user" "secret"
       ("logs-a" ++ String newline "logs-b") EmptyString
       check_shard_size "3" "200gb".

(** ** The rows of a catalog and the active threshold *)

(** The rows of the lines the parser reads. *)
Definition catalog_rows (raw : string) : list IndexRecord :=
  List.map row_of (data_lines raw).

(** The row violates the threshold of the action. *)
Definition violates (a : Action) (min_count : Z) (max_size_gb : PrimFloat.float)
    (r : IndexRecord) : bool :=
  match a with
  | check_shard_size => too_big max_size_gb r
  | check_shard_count => too_few min_count r
  end.

(** The row is well formed for the action: its count is an integer, and
    for the size check a positive one beside a size token that parses. *)
Definition well_formed_for (a : Action) (r : IndexRecord) : bool :=
  match a with
  | check_shard_size => defined (avg_shard_size_gb r)
  | check_shard_count => defined (shard_count r)
  end.

(** * Properties *)

(** ** The monad *)

Lemma bind_ret {A B} (a : A) (k : A -> M B) : bind (ret a) k = k a.
Proof. unfold bind; simpl. now destruct (k a). Qed.

Lemma bind_raise {A B} (e : exn) (k : A -> M B) : bind (raise e) k = raise e.
Proof. reflexivity. Qed.

Lemma bind_run_exit {A B} (out : list line) (status : Z) (k : A -> M B) :
  bind (Run out (Exit status)) k = Run out (Exit status).
Proof. reflexivity. Qed.

Lemma bind_ext {A B} (m : M A) (k1 k2 : A -> M B) :
  (forall a, k1 a = k2 a) -> bind m k1 = bind m k2.
Proof. intros H. unfold bind. destruct (ended m); [now rewrite H | |]; reflexivity. Qed.

Lemma silent_guarded {A} (m : M A) : silent m -> guarded m.
Proof. destruct 1; constructor. Qed.

Lemma silent_bind {A B} (m : M A) (k : A -> M B) :
  silent m -> (forall a, silent (k a)) -> silent (bind m k).
Proof.
  intros [a | e] Hk.
  - rewrite bind_ret. apply Hk.
  - rewrite bind_raise. constructor.
Qed.

Lemma guarded_bind {A B} (m : M A) (k : A -> M B) :
  guarded m -> (forall a, guarded (k a)) -> guarded (bind m k).
Proof.
  intros [a | e | token] Hk.
  - rewrite bind_ret. apply Hk.
  - rewrite bind_raise. constructor.
  - rewrite bind_run_exit. constructor.
Qed.

Lemma silent_for_in {A S} (xs : list A) (body : A -> S -> M S) :
  (forall x s, silent (body x s)) -> forall s, silent (for_in xs body s).
Proof.
  intros Hb. induction xs as [| x xs IH]; intros s; simpl.
  - constructor.
  - apply silent_bind; auto.
Qed.

Lemma guarded_for_in {A S} (xs : list A) (body : A -> S -> M S) :
  (forall x s, guarded (body x s)) -> forall s, guarded (for_in xs body s).
Proof.
  intros Hb. induction xs as [| x xs IH]; intros s; simpl.
  - constructor.
  - apply guarded_bind; auto.
Qed.

Lemma silent_int (s : string) : silent (int s).
Proof. unfold int. destruct (py_int s); constructor. Qed.

Lemma silent_float (s : string) : silent (float s).
Proof. unfold float. destruct (py_float s); constructor. Qed.

Lemma silent_getitem {A} (l : list A) (i : nat) : silent (getitem l i).
Proof. unfold getitem. destruct (nth_error l i); constructor. Qed.

Lemma silent_truediv (x : PrimFloat.float) (n : Z) : silent (truediv x n).
Proof.
  unfold truediv. destruct (float_of_int n); [destruct (n =? 0) |]; constructor.
Qed.

Lemma silent_call {A} (r : attempt A) : silent (call r).
Proof. destruct r; constructor. Qed.

Create HintDb runs discriminated.

#[local] Hint Constructors silent guarded : runs.
#[local] Hint Resolve silent_guarded silent_int silent_float silent_getitem
  silent_truediv silent_call : runs.

(** Binds of steps that the hints know, down to a branch on a test. *)
Ltac run_steps :=
  repeat first
    [ apply silent_bind; [solve [auto with runs] | intros ?]
    | apply guarded_bind; [solve [auto with runs] | intros ?] ];
  try match goal with
      | |- _ (if ?b then _ else _) => destruct b
      end;
  auto with runs.

Lemma guarded_get_gb_size_from_string (str : string) :
  guarded (get_gb_size_from_string str).
Proof.
  unfold get_gb_size_from_string.
  repeat match goal with
         | |- guarded (if Str.endswith ?s ?u then _ else _) =>
             destruct (Str.endswith s u); [run_steps |]
         end.
  exact (guarded_refused str).
Qed.

#[local] Hint Resolve guarded_get_gb_size_from_string : runs.

(** When the size parser returns, it has printed nothing. *)
Lemma parse_size_ret (token : string) (x : PrimFloat.float) :
  parse_size token = Some x -> get_gb_size_from_string token = ret x.
Proof.
  unfold parse_size.
  destruct (guarded_get_gb_size_from_string token) as [a | e | t]; simpl;
    intros H; now inversion H.
Qed.

(** ** The threshold evaluators *)

(** A loop that appends [f x] for the elements [x] it keeps collects the
    kept elements in order. *)
Lemma for_in_collect {A B} (xs : list A) (body : A -> list B -> M (list B))
    (keep : A -> bool) (f : A -> B) :
  (forall x acc, In x xs ->
     body x acc = ret (if keep x then acc ++ [f x] else acc)%list) ->
  forall acc, for_in xs body acc = ret (acc ++ map f (filter keep xs))%list.
Proof.
  induction xs as [| x xs IH]; intros Hbody acc; simpl.
  - now rewrite app_nil_r.
  - rewrite Hbody by now left. rewrite bind_ret.
    rewrite IH by (intros; apply Hbody; now right).
    destruct (keep x); simpl; [rewrite <- app_assoc |]; reflexivity.
Qed.

Lemma filter_none {A} (keep : A -> bool) (xs : list A) :
  forallb (fun x => negb (keep x)) xs = true -> filter keep xs = [].
Proof.
  induction xs as [| x xs IH]; simpl; [reflexivity |].
  intros H. apply andb_true_iff in H as [Hx Hxs].
  destruct (keep x); [discriminate | auto].
Qed.

Lemma count_body (min_count : Z) (r : IndexRecord) (acc : list string) :
  defined (shard_count r) = true ->
  (number_of_shards <- int (pri r) ;;
   if number_of_shards <? min_count
   then ret (acc ++ [index r])%list
   else ret acc)
  = ret (if too_few min_count r then acc ++ [index r] else acc)%list.
Proof.
  unfold too_few, shard_count, int. destruct (py_int (pri r)) as [n |];
    [intros _ | discriminate].
  rewrite bind_ret. now destruct (n <? min_count).
Qed.

Lemma size_body (max_size_gb : PrimFloat.float) (r : IndexRecord) (acc : list string) :
  defined (avg_shard_size_gb r) = true ->
  (number_of_shards <- int (pri r) ;;
   size <- get_gb_size_from_string (pri_store_size r) ;;
   avg <- truediv size number_of_shards ;;
   if gt avg max_size_gb
   then ret (acc ++ [index r])%list
   else ret acc)
  = ret (if too_big max_size_gb r then acc ++ [index r] else acc)%list.
Proof.
  unfold too_big, avg_shard_size_gb, shard_count, int.
  destruct (py_int (pri r)) as [n |]; [| discriminate].
  destruct (parse_size (pri_store_size r)) as [x |] eqn:Hsize; [| discriminate].
  destruct (0 <? n) eqn:Hpos; [| discriminate].
  destruct (float_of_int n) as [d |] eqn:Hd; [intros _ | discriminate].
  rewrite bind_ret, (parse_size_ret _ _ Hsize), bind_ret.
  unfold truediv. rewrite Hd.
  replace (n =? 0) with false by (symmetry; apply Z.eqb_neq; apply Z.ltb_lt in Hpos; lia).
  rewrite bind_ret. now destruct (gt (x / d) max_size_gb).
Qed.

(** C3. On rows whose shard count is an integer, [confirm_es_shard_count]
    returns the names of exactly the rows whose count is strictly below the
    minimum, in the order of the input; the empty list when there is none. *)
Theorem confirm_es_shard_count_spec (es_host es_port : string)
    (records : list IndexRecord) (min_count : Z) :
  forallb (fun r => defined (shard_count r)) records = true ->
  confirm_es_shard_count es_host es_port records min_count
    = ret (map index (filter (too_few min_count) records))
  /\ (forallb (fun r => negb (too_few min_count r)) records = true ->
      confirm_es_shard_count es_host es_port records min_count = ret []).
Proof.
  intros Hwf.
  assert (Hrun : confirm_es_shard_count es_host es_port records min_count
                 = ret (map index (filter (too_few min_count) records))).
  { unfold confirm_es_shard_count.
    rewrite (for_in_collect records _ (too_few min_count) index); [reflexivity |].
    intros r acc Hin. apply count_body.
    now apply (proj1 (forallb_forall _ records) Hwf). }
  split; [exact Hrun |].
  intros Hnone. rewrite Hrun, (filter_none _ _ Hnone). reflexivity.
Qed.

(** C2. On rows whose shard count is a positive integer (one that
    converts to a float) and whose size token parses,
    [confirm_es_shard_size] returns the names of exactly the rows for which
    the parsed size divided by the count is strictly above the bound, in the
    order of the input; the empty list when there is none. *)
Theorem confirm_es_shard_size_spec (es_host es_port : string)
    (records : list IndexRecord) (max_size_gb : PrimFloat.float) :
  forallb (fun r => defined (avg_shard_size_gb r)) records = true ->
  confirm_es_shard_size es_host es_port records max_size_gb
    = ret (map index (filter (too_big max_size_gb) records))
  /\ (forallb (fun r => negb (too_big max_size_gb r)) records = true ->
      confirm_es_shard_size es_host es_port records max_size_gb = ret []).
Proof.
  intros Hwf.
  assert (Hrun : confirm_es_shard_size es_host es_port records max_size_gb
                 = ret (map index (filter (too_big max_size_gb) records))).
  { unfold confirm_es_shard_size.
    rewrite (for_in_collect records _ (too_big max_size_gb) index); [reflexivity |].
    intros r acc Hin. apply size_body.
    now apply (proj1 (forallb_forall _ records) Hwf). }
  split; [exact Hrun |].
  intros Hnone. rewrite Hrun, (filter_none _ _ Hnone). reflexivity.
Qed.

(** C9. The host and the port handed to the evaluators have no influence
    on what they return. *)
Theorem evaluators_ignore_host_and_port
    (es_host1 es_port1 es_host2 es_port2 : string)
    (records : list IndexRecord) (min_count : Z) (max_size_gb : PrimFloat.float) :
  confirm_es_shard_count es_host1 es_port1 records min_count
    = confirm_es_shard_count es_host2 es_port2 records min_count
  /\ confirm_es_shard_size es_host1 es_port1 records max_size_gb
    = confirm_es_shard_size es_host2 es_port2 records max_size_gb.
Proof. split; reflexivity. Qed.

(** ** Strings *)

Lemma append_nil_r (s : string) : s ++ EmptyString = s.
Proof. induction s as [| c s IH]; simpl; [| rewrite IH]; reflexivity. Qed.

Lemma append_assoc (a b c : string) : (a ++ b) ++ c = a ++ (b ++ c).
Proof. induction a as [| x a IH]; simpl; [| rewrite IH]; reflexivity. Qed.

Lemma append_snoc (a b : string) (c : ascii) :
  (a ++ String c EmptyString) ++ b = a ++ String c b.
Proof. now rewrite append_assoc. Qed.

Lemma all_app (p : ascii -> bool) (a b : string) :
  Str.all p (a ++ b) = Str.all p a && Str.all p b.
Proof.
  induction a as [| c a IH]; simpl; [reflexivity |].
  now rewrite IH, andb_assoc.
Qed.

Lemma all_impl (p q : ascii -> bool) (s : string) :
  (forall c, p c = true -> q c = true) -> Str.all p s = true -> Str.all q s = true.
Proof.
  intros Hpq. induction s as [| c s IH]; simpl; [reflexivity |].
  intros H. apply andb_true_iff in H as [Hc Hs].
  now rewrite (Hpq c Hc), IH.
Qed.

Lemma split_from_word (w word rest : string) :
  Str.all nonspace w = true ->
  Str.split_from word (w ++ rest) = Str.split_from (word ++ w) rest.
Proof.
  revert word. induction w as [| c w IH]; intros word Hw; simpl.
  - now rewrite append_nil_r.
  - simpl in Hw. apply andb_true_iff in Hw as [Hc Hw].
    unfold nonspace in Hc. apply negb_true_iff in Hc. rewrite Hc.
    rewrite IH by assumption. now rewrite append_snoc.
Qed.

Lemma split_from_fields (s word : string) :
  Str.all nonspace word = true -> Forall is_field (Str.split_from word s).
Proof.
  revert word. induction s as [| c s IH]; intros word Hword; simpl.
  - destruct word; simpl; constructor; [split |]; auto.
  - destruct (isspace c) eqn:Hc.
    + destruct word; simpl; [apply IH; reflexivity |].
      constructor; [split; auto | apply IH; reflexivity].
    + apply IH. rewrite all_app, Hword. simpl. unfold nonspace. now rewrite Hc.
Qed.

Lemma split_join (fs : list string) :
  Forall is_field fs -> Str.split (Str.join " " fs) = fs.
Proof.
  unfold Str.split, Str.join.
  induction 1 as [| f fs [Hne Hf] Hfs IH]; [reflexivity |].
  cbn [String.concat]. destruct fs as [| g fs].
  - rewrite <- (append_nil_r f) at 1. rewrite split_from_word by assumption.
    simpl. now rewrite Hne.
  - rewrite split_from_word by assumption.
    cbn [String.append Str.split_from]. change (isspace " ") with true.
    cbn iota. rewrite Hne. now rewrite IH.
Qed.

(** Joining the fields of a line with single spaces and splitting again
    gives the same fields. *)
Lemma split_collapsed (line : string) :
  Str.split (Str.join " " (Str.split line)) = Str.split line.
Proof. apply split_join. now apply split_from_fields. Qed.

(** ** The catalog parser *)

Lemma parse_index_info_loop (es_index_info : string) :
  parse_index_info es_index_info
    = for_in (Str.split_on newline es_index_info) parse_line [].
Proof. reflexivity. Qed.

Lemma getitem_nth {A} (l : list A) (i : nat) (d : A) :
  (i < List.length l)%nat -> getitem l i = ret (nth i l d).
Proof.
  intros Hi. unfold getitem. now rewrite (nth_error_nth' l d Hi).
Qed.

Lemma parse_line_skipped (line : string) (acc : list IndexRecord) :
  skipped line = true -> parse_line line acc = ret acc.
Proof. unfold skipped, parse_line. now intros ->. Qed.

Lemma parse_line_row (line : string) (acc : list IndexRecord) :
  skipped line = false -> has_columns line = true ->
  parse_line line acc = ret (acc ++ [row_of line])%list.
Proof.
  unfold skipped, parse_line, has_columns, fields, row_of, fields.
  intros -> Hlen. apply Nat.leb_le in Hlen. cbv zeta.
  rewrite split_collapsed.
  rewrite !(getitem_nth _ _ EmptyString) by lia.
  now rewrite !bind_ret.
Qed.

Lemma parse_line_short (line : string) (acc : list IndexRecord) :
  skipped line = false -> has_columns line = false ->
  parse_line line acc = raise IndexError.
Proof.
  unfold skipped, parse_line, has_columns, fields.
  intros -> Hlen. apply Nat.leb_gt in Hlen. cbv zeta.
  rewrite split_collapsed. unfold getitem.
  destruct (nth_error (Str.split line) 2) eqn:H2; [| reflexivity].
  rewrite bind_ret.
  destruct (nth_error (Str.split line) 3) eqn:H3; [| reflexivity].
  rewrite bind_ret.
  destruct (nth_error (Str.split line) 7) eqn:H7; [| reflexivity].
  assert (nth_error (Str.split line) 7 <> None) as Hsome by congruence.
  apply nth_error_Some in Hsome. lia.
Qed.

Lemma parse_lines_rows (lines : list string) (acc : list IndexRecord) :
  forallb (fun line => skipped line || has_columns line) lines = true ->
  for_in lines parse_line acc
    = ret (acc ++ map row_of (filter (fun line => negb (skipped line)) lines))%list.
Proof.
  revert acc. induction lines as [| line lines IH]; intros acc Hall; simpl.
  - now rewrite app_nil_r.
  - simpl in Hall. apply andb_true_iff in Hall as [Hline Hall].
    destruct (skipped line) eqn:Hskip; simpl.
    + rewrite parse_line_skipped, bind_ret by assumption. now apply IH.
    + simpl in Hline. rewrite parse_line_row, bind_ret by assumption.
      rewrite IH by assumption. now rewrite <- app_assoc.
Qed.

Lemma parse_lines_short (lines : list string) (acc : list IndexRecord) :
  forallb (fun line => skipped line || has_columns line) lines = false ->
  for_in lines parse_line acc = raise IndexError.
Proof.
  revert acc. induction lines as [| line lines IH]; intros acc Hall; simpl.
  - discriminate.
  - simpl in Hall. destruct (skipped line) eqn:Hskip; simpl in Hall.
    + rewrite parse_line_skipped, bind_ret by assumption. now apply IH.
    + destruct (has_columns line) eqn:Hcols; simpl in Hall.
      * rewrite parse_line_row, bind_ret by assumption. now apply IH.
      * now rewrite parse_line_short.
Qed.

Lemma forallb_filter {A} (keep p : A -> bool) (xs : list A) :
  forallb p (filter keep xs) = forallb (fun x => negb (keep x) || p x) xs.
Proof.
  induction xs as [| x xs IH]; simpl; [reflexivity |].
  destruct (keep x); simpl; now rewrite IH.
Qed.

Lemma data_lines_columns (raw : string) :
  forallb has_columns (data_lines raw)
    = forallb (fun line => skipped line || has_columns line)
              (Str.split_on newline raw).
Proof.
  unfold data_lines. rewrite forallb_filter.
  induction (Str.split_on newline raw) as [| x xs IH]; simpl; [reflexivity |].
  now rewrite negb_involutive, IH.
Qed.

(** C4, amended.  When every line that is neither empty nor marked with
    " index " or " close " has at least eight fields, the parser returns one
    row for each such line, in the order of the lines, made of its fields
    2, 3 and 7; the empty and the marked lines leave no row. *)
Theorem parse_index_info_rows (raw : string) :
  forallb has_columns (data_lines raw) = true ->
  parse_index_info raw = ret (map row_of (data_lines raw)).
Proof.
  intros Hcols. rewrite data_lines_columns in Hcols.
  rewrite parse_index_info_loop. now rewrite parse_lines_rows.
Qed.

(** C10. When some line that is neither empty nor marked with " index "
    or " close " has fewer than eight fields, the parser returns no rows:
    it raises [IndexError]. *)
Theorem parse_index_info_short_line (raw : string) :
  (exists line, In line (Str.split_on newline raw)
                /\ skipped line = false
                /\ (List.length (fields line) < 8)%nat) ->
  parse_index_info raw = raise IndexError.
Proof.
  intros (line & Hin & Hskip & Hlen).
  rewrite parse_index_info_loop. apply parse_lines_short.
  apply not_true_is_false. intros Hall.
  apply (proj1 (forallb_forall _ _) Hall) in Hin.
  rewrite Hskip in Hin. simpl in Hin. apply Nat.leb_le in Hin. lia.
Qed.

(** ** The size parser *)

Lemma endswith_unfold (s suffix : string) :
  Str.endswith s suffix
  = if String.eqb s suffix then true
    else match s with
         | EmptyString => false
         | String _ s' => Str.endswith s' suffix
         end.
Proof. destruct s; reflexivity. Qed.

Lemma endswith_app (a suffix : string) : Str.endswith (a ++ suffix) suffix = true.
Proof.
  induction a as [| c a IH]; rewrite endswith_unfold; cbn [String.append].
  - now rewrite String.eqb_refl.
  - rewrite IH. now destruct (String.eqb (String c (a ++ suffix)) suffix).
Qed.

(** A suffix of [s] is made of characters of [s]. *)
Lemma endswith_all (p : ascii -> bool) (s suffix : string) :
  Str.endswith s suffix = true -> Str.all p s = true -> Str.all p suffix = true.
Proof.
  induction s as [| c s IH]; rewrite endswith_unfold.
  - destruct (String.eqb_spec EmptyString suffix) as [<- |]; [auto | discriminate].
  - destruct (String.eqb_spec (String c s) suffix) as [<- | _]; [auto |].
    intros Hend Hall. simpl in Hall. apply andb_true_iff in Hall as [_ Hall]. auto.
Qed.

Lemma endswith_excluded (p : ascii -> bool) (s suffix : string) :
  Str.all p s = true -> Str.all p suffix = false -> Str.endswith s suffix = false.
Proof.
  intros Hs Hsuf. destruct (Str.endswith s suffix) eqn:Hend; [| reflexivity].
  now rewrite (endswith_all p s suffix Hend Hs) in Hsuf.
Qed.

Lemma numeral_char_neq (c d : ascii) :
  numeral_char c = true -> numeral_char d = false -> Ascii.eqb c d = false.
Proof.
  intros Hc Hd. destruct (Ascii.eqb_spec c d) as [-> |]; [congruence | reflexivity].
Qed.

(** A numeral followed by [tail] does not end in a suffix that starts with
    a letter foreign to [tail]. *)
Lemma numeral_endswith (num tail : string) (d : ascii) (rest : string) :
  Str.all numeral_char num = true ->
  numeral_char d = false ->
  Str.all (fun c => negb (Ascii.eqb c d)) tail = true ->
  Str.endswith (num ++ tail) (String d rest) = false.
Proof.
  intros Hnum Hd Htail.
  apply (endswith_excluded (fun c => negb (Ascii.eqb c d))).
  - rewrite all_app, Htail, andb_true_r.
    apply (all_impl numeral_char); [| assumption].
    intros c Hc. now rewrite (numeral_char_neq c d).
  - simpl. now rewrite Ascii.eqb_refl.
Qed.

Lemma replace_skip (old new s : string) :
  Str.is_empty old = false ->
  Str.replace_from old new (String.length s) s = EmptyString.
Proof.
  intros Hold. induction s as [| c s IH]; simpl; [now rewrite Hold | exact IH].
Qed.

Lemma prefix_refl (s : string) : String.prefix s s = true.
Proof.
  induction s as [| c s IH]; simpl; [reflexivity |].
  now destruct (ascii_dec c c).
Qed.

Lemma prefix_head (d c : ascii) (rest s : string) :
  Ascii.eqb c d = false -> String.prefix (String d rest) (String c s) = false.
Proof.
  intros Hcd. simpl. destruct (ascii_dec d c) as [-> |]; [| reflexivity].
  now rewrite Ascii.eqb_refl in Hcd.
Qed.

(** Removing the occurrences of a suffix from a numeral that carries it
    leaves the numeral. *)
Lemma replace_suffix (num : string) (d : ascii) (rest : string) :
  Str.all numeral_char num = true ->
  numeral_char d = false ->
  Str.replace (num ++ String d rest) (String d rest) EmptyString = num.
Proof.
  intros Hnum Hd. unfold Str.replace.
  induction num as [| c num IH].
  - cbn [String.append Str.replace_from]. rewrite prefix_refl.
    cbn [Str.is_empty String.append String.length Nat.pred].
    now apply replace_skip.
  - simpl in Hnum. apply andb_true_iff in Hnum as [Hc Hnum].
    cbn [String.append Str.replace_from].
    rewrite prefix_head by now apply numeral_char_neq.
    now rewrite IH.
Qed.

Lemma span_digits_all (s : string) :
  Str.all isdigit s = true -> span_digits s = (s, EmptyString).
Proof.
  induction s as [| c s IH]; simpl; [reflexivity |].
  intros H. apply andb_true_iff in H as [Hc Hs]. now rewrite Hc, IH.
Qed.

Lemma span_digits_split (s : string) :
  s = fst (span_digits s) ++ snd (span_digits s)
  /\ Str.all isdigit (fst (span_digits s)) = true.
Proof.
  induction s as [| c s [IHs IHd]]; simpl; [now split |].
  destruct (isdigit c) eqn:Hc; [| now split].
  destruct (span_digits s) as [d r]; simpl in *. rewrite Hc, IHd.
  split; [now rewrite <- IHs | reflexivity].
Qed.

Lemma digit_numeral_char (c : ascii) : isdigit c = true -> numeral_char c = true.
Proof. unfold numeral_char. now intros ->. Qed.

Lemma decimal_numeral_chars (s : string) :
  decimal_numeral s = true -> Str.all numeral_char s = true.
Proof.
  unfold decimal_numeral. destruct (span_digits_split s) as [Hs Hd].
  destruct (span_digits s) as [ip r]; simpl in Hs, Hd. intros H. rewrite Hs, all_app.
  rewrite (all_impl _ _ _ digit_numeral_char Hd). destruct r as [| c fp]; [reflexivity |].
  apply andb_true_iff in H as [H _]. apply andb_true_iff in H as [Hc Hfp].
  simpl. unfold numeral_char at 1. rewrite Hc, orb_true_r.
  now rewrite (all_impl _ _ _ digit_numeral_char Hfp).
Qed.

Lemma decimal_numeral_parses (s : string) :
  decimal_numeral s = true -> exists m e, parse_decimal s = Some (m, e).
Proof.
  unfold decimal_numeral, parse_decimal.
  destruct (span_digits s) as [ip r]. destruct r as [| c fp]; intros H.
  - apply negb_true_iff in H. rewrite H. simpl. eauto.
  - apply andb_true_iff in H as [H Hne]. apply andb_true_iff in H as [Hc Hfp].
    apply Ascii.eqb_eq in Hc. subst c. cbn iota.
    rewrite (span_digits_all fp Hfp).
    apply negb_true_iff in Hne. rewrite Hne. eauto.
Qed.

(** What a character of a numeral is not. *)
Lemma numeral_char_plain (c : ascii) :
  numeral_char c = true ->
  is_underscore c = false
  /\ isspace_c c = false
  /\ Ascii.eqb (lower c) "i" = false
  /\ Ascii.eqb (lower c) "n" = false
  /\ forall r, split_sign (String c r) = (false, String c r).
Proof.
  destruct c as [[] [] [] [] [] [] [] []]; intros H; vm_compute in H;
    try discriminate H; repeat split; reflexivity.
Qed.

Lemma underscores_from_none (prev : ascii) (s : string) :
  is_underscore prev = false ->
  Str.all numeral_char s = true ->
  underscores_from prev s = true /\ remove_underscores s = s.
Proof.
  revert prev. induction s as [| c s IH]; intros prev Hprev Hs; simpl.
  - now rewrite Hprev.
  - simpl in Hs. apply andb_true_iff in Hs as [Hc Hs].
    destruct (numeral_char_plain c Hc) as (Hu & _).
    rewrite Hu, Hprev. destruct (IH c Hu Hs) as [-> ->]. now split.
Qed.

Lemma rstrip_none (p : ascii -> bool) (s : string) :
  Str.all (fun c => negb (p c)) s = true -> Str.rstrip p s = s.
Proof.
  induction s as [| c s IH]; simpl; [reflexivity |].
  intros H. apply andb_true_iff in H as [Hc Hs]. rewrite (IH Hs).
  apply negb_true_iff in Hc. rewrite Hc. now destruct s.
Qed.

Lemma strip_numeral (s : string) :
  Str.all numeral_char s = true -> Str.strip isspace_c s = s.
Proof.
  intros Hs. unfold Str.strip.
  assert (Hnone : Str.all (fun c => negb (isspace_c c)) s = true).
  { apply (all_impl numeral_char); [| assumption].
    intros c Hc. destruct (numeral_char_plain c Hc) as (_ & -> & _). reflexivity. }
  destruct s as [| c s]; [reflexivity |].
  simpl in Hs. apply andb_true_iff in Hs as [Hc _].
  destruct (numeral_char_plain c Hc) as (_ & Hsp & _).
  cbn [Str.lstrip]. rewrite Hsp. now apply rstrip_none.
Qed.

Lemma inf_or_nan_numeral (s : string) :
  Str.all numeral_char s = true -> inf_or_nan s = None.
Proof.
  destruct s as [| c s]; [reflexivity |].
  intros Hs. simpl in Hs. apply andb_true_iff in Hs as [Hc _].
  destruct (numeral_char_plain c Hc) as (_ & _ & Hi & Hn & _).
  unfold inf_or_nan. cbn [Str.map String.eqb]. now rewrite Hi, Hn.
Qed.

(** [float()] accepts every decimal numeral. *)
Lemma py_float_numeral (num : string) :
  decimal_numeral num = true -> exists x, py_float num = Some x.
Proof.
  intros Hnum. pose proof (decimal_numeral_chars num Hnum) as Hchars.
  destruct (decimal_numeral_parses num Hnum) as (m & e & Hparse).
  unfold py_float, underscores_ok.
  destruct (underscores_from_none Ascii.zero num eq_refl Hchars) as [-> ->].
  rewrite (strip_numeral num Hchars).
  assert (Hsign : split_sign num = (false, num)).
  { destruct num as [| c r]; [reflexivity |].
    simpl in Hchars. apply andb_true_iff in Hchars as [Hc _].
    destruct (numeral_char_plain c Hc) as (_ & _ & _ & _ & Hsign). apply Hsign. }
  rewrite Hsign, (inf_or_nan_numeral num Hchars), Hparse. eauto.
Qed.

Ltac other_suffix Hchars :=
  match goal with
  | |- context [Str.endswith (?n ++ ?t) (String ?d ?r)] =>
      rewrite (numeral_endswith n t d r Hchars eq_refl eq_refl)
  end.

Ltac this_suffix Hchars Hx :=
  rewrite endswith_app;
  match goal with
  | |- context [Str.replace (?n ++ String ?d ?r) _ _] =>
      rewrite (replace_suffix n d r Hchars eq_refl)
  end;
  unfold float; rewrite Hx; rewrite ?bind_ret; reflexivity.

(** C1, amended.  On a decimal numeral followed by a unit suffix the size
    parser returns the binary64 value [x] of the numeral scaled as the code
    writes it: [x * 1000] for [tb], [x] for [gb], [x * 0.001] for [mb],
    [x * 0.001 * 0.001] for [kb], [x * 0.001 * 0.001 * 0.001] for [b].  The
    longer suffixes are tried before the bare [b]. *)
Theorem get_gb_size_from_string_table (num : string) :
  decimal_numeral num = true ->
  exists x : PrimFloat.float,
    py_float num = Some x
    /\ get_gb_size_from_string (num ++ "tb") = ret (x * 1000)%float
    /\ get_gb_size_from_string (num ++ "gb") = ret x
    /\ get_gb_size_from_string (num ++ "mb") = ret (x * 0.001)%float
    /\ get_gb_size_from_string (num ++ "kb") = ret (x * 0.001 * 0.001)%float
    /\ get_gb_size_from_string (num ++ "b") = ret (x * 0.001 * 0.001 * 0.001)%float.
Proof.
  intros Hnum. pose proof (decimal_numeral_chars num Hnum) as Hchars.
  destruct (py_float_numeral num Hnum) as [x Hx]. exists x.
  split; [exact Hx |].
  unfold get_gb_size_from_string. repeat split.
  - other_suffix Hchars. this_suffix Hchars Hx.
  - this_suffix Hchars Hx.
  - do 2 other_suffix Hchars. this_suffix Hchars Hx.
  - do 3 other_suffix Hchars. this_suffix Hchars Hx.
  - do 4 other_suffix Hchars. this_suffix Hchars Hx.
Qed.

Lemma endswith_tail (s : string) (c : ascii) (t : string) :
  Str.endswith s (String c t) = true -> Str.endswith s t = true.
Proof.
  induction s as [| x s IH]; rewrite (endswith_unfold _ (String c t)).
  - simpl. discriminate.
  - destruct (String.eqb_spec (String x s) (String c t)) as [Heq | _].
    + intros _. rewrite Heq. apply (endswith_app (String c EmptyString) t).
    + intros H. rewrite endswith_unfold, (IH H).
      now destruct (String.eqb (String x s) t).
Qed.

(** Every unit suffix ends in [b]: the strings the parser recognizes are
    the strings that end in [b]. *)
Lemma recognized_b (s : string) : recognized s = Str.endswith s "b".
Proof.
  unfold recognized. destruct (Str.endswith s "b") eqn:Hb;
    [now rewrite orb_true_r |].
  assert (Hnot : forall c, Str.endswith s (String c "b") = false).
  { intros c. destruct (Str.endswith s (String c "b")) eqn:H; [| reflexivity].
    apply endswith_tail in H. congruence. }
  now rewrite !Hnot.
Qed.

(** A string that ends in a unit suffix is handed to [float()]: the parser
    prints nothing and does not exit. *)
Lemma recognized_size_is_silent (s : string) :
  recognized s = true -> silent (get_gb_size_from_string s).
Proof.
  unfold recognized, get_gb_size_from_string.
  repeat match goal with
         | |- context [if Str.endswith s ?u then _ else _] =>
             destruct (Str.endswith s u);
             [intros _; apply silent_bind; [apply silent_float | constructor] |]
         end.
  discriminate.
Qed.

(** C5, amended.  A string that ends in none of the unit suffixes is
    refused: the parser prints the error line for it, nothing else, and
    exits with the CRITICAL status. *)
Theorem unrecognized_size_is_critical (s : string) :
  recognized s = false ->
  get_gb_size_from_string s = Run [refusal s] (Exit NAGIOS_CRITICAL).
Proof.
  unfold recognized, get_gb_size_from_string. intros Hnone.
  repeat (apply orb_false_iff in Hnone as [Hnone ?]).
  repeat match goal with
         | H : Str.endswith s _ = false |- _ => rewrite H; clear H
         end.
  reflexivity.
Qed.

(** ** The report *)

Lemma len_cons {A} (x : A) (l : list A) : len (x :: l) = 1 + len l.
Proof. unfold len. cbn [List.length]. lia. Qed.

Lemma len_nonneg {A} (l : list A) : 0 <= len l.
Proof. unfold len. lia. Qed.

Lemma len_two {A} (x y : A) (l : list A) :
  (len (x :: y :: l) =? 0) = false
  /\ (len (x :: y :: l) =? 1) = false
  /\ (1 <? len (x :: y :: l)) = true.
Proof.
  rewrite !len_cons. pose proof (len_nonneg l).
  repeat split; [apply Z.eqb_neq | apply Z.eqb_neq | apply Z.ltb_lt]; lia.
Qed.

(** The script is: read the two bounds and the port, fetch, parse,
    evaluate, report. *)
Lemma main_steps (world : Outside) (l : Namespace) :
  main world l
  = (min_count <- int (min_shard_count l) ;;
     max_size_gb <- get_gb_size_from_string (max_shard_size l) ;;
     context <- call (create_default_context world (ca_file l)) ;;
     port <- int (es_port l) ;;
     raw <- call (cat_indices world l) ;;
     records <- parse_index_info raw ;;
     failed <- evaluate l records min_count max_size_gb ;;
     report l min_count max_size_gb failed).
Proof.
  unfold main. cbv zeta. do 6 (apply bind_ext; intros ?).
  unfold evaluate, report, critical_line, ok_line.
  destruct (action l); apply bind_ext; intros failed;
    destruct failed as [| n1 [| n2 rest]]; try reflexivity;
    destruct (len_two n1 n2 rest) as (H0 & H1 & H2); rewrite H0, H1, H2;
    reflexivity.
Qed.

Lemma run_end_bind {A} (m : M A) (k : A -> M unit) :
  guarded m -> (forall a, run_end (k a)) -> run_end (bind m k).
Proof.
  intros [a | e | token] Hk.
  - rewrite bind_ret. apply Hk.
  - rewrite bind_raise. constructor.
  - rewrite bind_run_exit. apply end_refused.
Qed.

Lemma silent_parse_index_info (raw : string) : silent (parse_index_info raw).
Proof.
  rewrite parse_index_info_loop. apply silent_for_in. intros line acc.
  unfold parse_line. destruct (_ || _); [constructor | run_steps].
Qed.

Lemma guarded_evaluate (l : Namespace) (records : list IndexRecord)
    (min_count : Z) (max_size_gb : PrimFloat.float) :
  guarded (evaluate l records min_count max_size_gb).
Proof.
  unfold evaluate, confirm_es_shard_size, confirm_es_shard_count.
  destruct (action l); apply guarded_for_in; intros r acc; run_steps.
Qed.

Lemma run_end_report (l : Namespace) (min_count : Z) (max_size_gb : PrimFloat.float)
    (failed : list string) :
  run_end (report l min_count max_size_gb failed).
Proof.
  unfold report, critical_line, ok_line.
  destruct failed as [| a [| b rest]]; destruct (action l);
    (apply end_ok || apply end_critical); reflexivity.
Qed.

Lemma guarded_cases {A} (m : M A) :
  guarded m ->
  (exists a, m = ret a) \/ (exists e, m = raise e)
  \/ (exists token, m = Run [refusal token] (Exit NAGIOS_CRITICAL)).
Proof. destruct 1; eauto. Qed.

Lemma run_shape_bind {A} (l : Namespace) (m : M A) (k : A -> M unit) :
  guarded m -> (forall a, run_shape l (k a)) -> run_shape l (bind m k).
Proof.
  intros [a | e | token] Hk.
  - rewrite bind_ret. apply Hk.
  - rewrite bind_raise. constructor.
  - rewrite bind_run_exit. constructor.
Qed.

Lemma run_shape_main (world : Outside) (l : Namespace) : run_shape l (main world l).
Proof.
  rewrite main_steps.
  repeat (apply run_shape_bind;
          [auto using silent_parse_index_info, guarded_evaluate with runs
          | intros ?]).
  constructor.
Qed.

Lemma line_breaks_ok_line (a : Action) (pattern : string) (min_count : Z)
    (max_size_gb : PrimFloat.float) :
  line_breaks (ok_line a pattern min_count max_size_gb) = newlines pattern.
Proof.
  destruct a; unfold line_breaks, ok_line, list_sum;
    cbn [template args List.map arg_newlines fold_right];
    match goal with
    | |- (newlines ?t + _)%nat = _ => replace (newlines t) with O by reflexivity
    end; lia.
Qed.

(** C6, amended.  Every run of the script ends in one of four ways: it
    prints one message that starts with "OK: " and exits with 0; it prints
    one message that starts with "CRITICAL: " and exits with 2; it prints
    the size parser's "ERROR: " message and exits with 2; or a step raises
    an exception that the script does not catch, after printing nothing.
    The OK message has as many line breaks as the index pattern, so it is a
    single line when the pattern holds none.  The script itself never exits
    with 1 or 3. *)
Theorem main_run_end (world : Outside) (l : Namespace) :
  run_end (main world l)
  /\ ended (main world l) <> Exit NAGIOS_WARNING
  /\ ended (main world l) <> Exit NAGIOS_UNKNOWN
  /\ (ended (main world l) = Exit NAGIOS_OK ->
      exists shown,
        stdout (main world l) = [shown]
        /\ String.prefix "OK: " (template shown) = true
        /\ line_breaks shown = newlines (es_index l)).
Proof.
  assert (Hend : run_end (main world l)).
  { rewrite main_steps.
    repeat (apply run_end_bind;
            [auto using silent_parse_index_info, guarded_evaluate with runs
            | intros ?]).
    apply run_end_report. }
  split; [exact Hend |].
  split; [destruct Hend; simpl; discriminate |].
  split; [destruct Hend; simpl; discriminate |].
  destruct (run_shape_main world l) as [min_count max_size_gb failed | token | e];
    [| discriminate | discriminate].
  unfold report. destruct failed; [| discriminate].
  intros _. eexists. split; [reflexivity |]. split.
  - unfold ok_line. now destruct (action l).
  - apply line_breaks_ok_line.
Qed.

(** ** Shard counts that are not positive *)

Lemma for_in_raises {A S} (xs : list A) (x : A) (ys : list A)
    (body : A -> S -> M S) (e : exn) :
  (forall g acc, In g xs -> exists acc', body g acc = ret acc') ->
  (forall acc, body x acc = raise e) ->
  forall acc, for_in (xs ++ x :: ys) body acc = raise e.
Proof.
  intros Hxs Hx. induction xs as [| g xs IH]; intros acc; simpl.
  - now rewrite Hx.
  - destruct (Hxs g acc (or_introl eq_refl)) as [acc' ->]. rewrite bind_ret.
    apply IH. intros; apply Hxs; now right.
Qed.

Lemma parse_index_info_ret (raw : string) (rs : list IndexRecord) :
  parse_index_info raw = ret rs -> rs = map row_of (data_lines raw).
Proof.
  rewrite parse_index_info_loop. unfold data_lines.
  destruct (forallb (fun line => skipped line || has_columns line)
                    (Str.split_on newline raw)) eqn:Hcols.
  - rewrite (parse_lines_rows _ _ Hcols). intros H. now inversion H.
  - rewrite (parse_lines_short _ _ Hcols). discriminate.
Qed.

(** C7, amended.  The parser copies field 3 of a line into the row as it
    stands, whatever it is; a count of 0 is not turned into a parse error.
    [confirm_es_shard_size] then raises [ZeroDivisionError] at the first row
    whose count is 0, when the rows before it are well formed and the size
    token of that row parses.  On rows whose counts are all positive (and
    whose size tokens parse) it does not divide by zero. *)
Theorem shard_count_is_not_checked (raw : string) (rs : list IndexRecord)
    (es_host es_port : string) (good : list IndexRecord) (r : IndexRecord)
    (rest : list IndexRecord) (max_size_gb : PrimFloat.float) :
  (parse_index_info raw = ret rs ->
   map pri rs = map (fun line => nth 3 (fields line) EmptyString) (data_lines raw))
  /\ (forallb (fun g => defined (avg_shard_size_gb g)) good = true ->
      shard_count r = Some 0 ->
      defined (parse_size (pri_store_size r)) = true ->
      confirm_es_shard_size es_host es_port (good ++ r :: rest) max_size_gb
        = raise ZeroDivisionError)
  /\ (forallb (fun g => defined (avg_shard_size_gb g)) good = true ->
      ended (confirm_es_shard_size es_host es_port good max_size_gb)
        <> Raise ZeroDivisionError).
Proof.
  split; [| split].
  - intros Hparse. rewrite (parse_index_info_ret raw rs Hparse), map_map.
    reflexivity.
  - intros Hgood Hzero Hsize. unfold confirm_es_shard_size.
    apply for_in_raises.
    + intros g acc Hin. rewrite size_body; [eauto |].
      now apply (proj1 (forallb_forall _ good) Hgood).
    + intros acc. unfold shard_count in Hzero. unfold int. rewrite Hzero, bind_ret.
      destruct (parse_size (pri_store_size r)) as [x |] eqn:Hx; [| discriminate].
      now rewrite (parse_size_ret _ _ Hx), bind_ret.
  - intros Hgood. unfold confirm_es_shard_size.
    rewrite (for_in_collect good _ (too_big max_size_gb) index); [discriminate |].
    intros g acc Hin. apply size_body.
    now apply (proj1 (forallb_forall _ good) Hgood).
Qed.

(** * The properties at sample inputs *)

Example three_tb : get_gb_size_from_string "3tb" = ret 3000%float.
Proof. reflexivity. Qed.

Example sizes :
  get_gb_size_from_string "10.5gb" = ret 10.5%float
  /\ get_gb_size_from_string "1.2tb" = ret 1200%float
  /\ get_gb_size_from_string "500mb" = ret 0.5%float
  /\ get_gb_size_from_string "abc" = Run [refusal "abc"] (Exit NAGIOS_CRITICAL).
Proof. repeat split; reflexivity. Qed.

Example sample_catalog_rows : parse_index_info sample_catalog = ret sample_rows.
Proof. reflexivity. Qed.

Example sample_size_run :
  main (sample_cluster sample_catalog) (sample_args check_shard_size "3" "50gb")
  = Run [Fmt "CRITICAL: Index %s has shards bigger than %s GB!"
             [ArgStr "logs-b"; ArgFloat 50%float]]
        (Exit NAGIOS_CRITICAL).
Proof. reflexivity. Qed.

Example sample_ok_run :
  main (sample_cluster sample_catalog) (sample_args check_shard_size "3" "100gb")
  = Run [ok_line check_shard_size "logs-*" 3 100%float] (Exit NAGIOS_OK).
Proof. reflexivity. Qed.

Lemma get_gb_size_from_string_table_witness :
  decimal_numeral "3" = true
  /\ get_gb_size_from_string "3tb" = ret 3000%float
  /\ get_gb_size_from_string "3b" = ret (3 * 0.001 * 0.001 * 0.001)%float.
Proof.
  split; [reflexivity |].
  destruct (get_gb_size_from_string_table "3" eq_refl)
    as (x & Hx & Htb & _ & _ & _ & Hb).
  vm_compute in Hx. injection Hx as <-. split; [exact Htb | exact Hb].
Defined.

(** C1 as stated fails at "9kb": the parser returns 9 * 0.001 * 0.001,
    which is 9.0000000000000019e-06, one unit in the last place above both
    the product 9 * 0.000001 and the binary64 number nearest to
    0.000009. *)
Lemma nine_kb_is_not_one_product :
  decimal_numeral "9" = true
  /\ py_float "9" = Some 9%float
  /\ get_gb_size_from_string "9kb" = ret 9.0000000000000019e-06%float
  /\ get_gb_size_from_string "9kb" <> ret (9 * 0.000001)%float
  /\ get_gb_size_from_string "9kb" <> ret (round_decimal 9 (-6)).
Proof.
  repeat split; try reflexivity; intros H;
    apply (f_equal (fun m => match ended m with
                             | Ret y => Prim2SF y
                             | _ => S754_nan
                             end)) in H;
    vm_compute in H; discriminate H.
Qed.

Lemma confirm_es_shard_size_spec_witness :
  forallb (fun r => defined (avg_shard_size_gb r)) [Row "idx1" "2" "100gb"] = true
  /\ confirm_es_shard_size "localhost" "9200" [Row "idx1" "2" "100gb"] 40%float
     = ret ["idx1"]
  /\ confirm_es_shard_size "localhost" "9200" [Row "idx1" "2" "100gb"] 60%float
     = ret [].
Proof.
  split; [reflexivity |]. split.
  - exact (proj1 (confirm_es_shard_size_spec "localhost" "9200"
                    [Row "idx1" "2" "100gb"] 40%float eq_refl)).
  - exact (proj2 (confirm_es_shard_size_spec "localhost" "9200"
                    [Row "idx1" "2" "100gb"] 60%float eq_refl) eq_refl).
Defined.

Lemma confirm_es_shard_count_spec_witness :
  forallb (fun r => defined (shard_count r))
          [Row "idx1" "1" "1gb"; Row "idx2" "5" "1gb"] = true
  /\ confirm_es_shard_count "localhost" "9200"
       [Row "idx1" "1" "1gb"; Row "idx2" "5" "1gb"] 3 = ret ["idx1"]
  /\ confirm_es_shard_count "localhost" "9200"
       [Row "idx1" "1" "1gb"; Row "idx2" "5" "1gb"] 1 = ret [].
Proof.
  split; [reflexivity |]. split.
  - exact (proj1 (confirm_es_shard_count_spec "localhost" "9200"
                    [Row "idx1" "1" "1gb"; Row "idx2" "5" "1gb"] 3 eq_refl)).
  - exact (proj2 (confirm_es_shard_count_spec "localhost" "9200"
                    [Row "idx1" "1" "1gb"; Row "idx2" "5" "1gb"] 1 eq_refl) eq_refl).
Defined.

Lemma parse_index_info_rows_witness :
  forallb has_columns (data_lines sample_catalog) = true
  /\ parse_index_info sample_catalog = ret sample_rows.
Proof.
  split; [reflexivity | exact (parse_index_info_rows sample_catalog eq_refl)].
Defined.

(** C4 as stated fails on a line of one space, which is neither skipped
    nor turned into a row, and on the line of an index whose size columns
    are blank: the parser raises and returns no row at all. *)
Lemma short_line_gives_no_rows :
  skipped " " = false
  /\ parse_index_info " " = raise IndexError
  /\ skipped red_catalog = false
  /\ fields red_catalog = ["red"; "open"; "logs-r"; "5"; "1"; "2020-01-03T00:00:00.000Z"]
  /\ parse_index_info red_catalog = raise IndexError.
Proof. repeat split; reflexivity. Qed.

Lemma parse_index_info_short_line_witness :
  (exists line, In line (Str.split_on newline red_catalog)
                /\ skipped line = false
                /\ (List.length (fields line) < 8)%nat)
  /\ parse_index_info red_catalog = raise IndexError.
Proof.
  assert (H : exists line, In line (Str.split_on newline red_catalog)
                           /\ skipped line = false
                           /\ (List.length (fields line) < 8)%nat).
  { exists red_catalog. split; [left; reflexivity |]. split; [reflexivity |].
    vm_compute. lia. }
  split; [exact H | exact (parse_index_info_short_line red_catalog H)].
Defined.

Lemma unrecognized_size_is_critical_witness :
  recognized "50GB" = false
  /\ get_gb_size_from_string "50GB" = Run [refusal "50GB"] (Exit NAGIOS_CRITICAL).
Proof.
  split; [reflexivity | exact (unrecognized_size_is_critical "50GB" eq_refl)].
Defined.

(** C5 as stated fails at "xgb": the string ends in a unit suffix, its
    numeric portion [x] does not parse, and the parser raises [ValueError]
    without printing or exiting.  It also fails at "-5gb", whose negative
    numeric portion is accepted. *)
Lemma unparseable_number_is_not_critical :
  Str.replace "xgb" "gb" EmptyString = "x"
  /\ py_float "x" = None
  /\ get_gb_size_from_string "xgb" = raise ValueError
  /\ ended (get_gb_size_from_string "xgb") <> Exit NAGIOS_CRITICAL
  /\ stdout (get_gb_size_from_string "xgb") = []
  /\ get_gb_size_from_string "-5gb" = ret (-5)%float.
Proof. repeat split; try reflexivity. discriminate. Qed.

(** C6 as stated fails when [--min_shard_count] is not an integer:
    [int("three")] raises, nothing catches it, and the status of the
    process is 1.  Its single-line OK message fails for an index pattern
    that holds a line break: the message then takes two lines. *)
Lemma bad_minimum_is_not_critical :
  main (sample_cluster sample_catalog) (sample_args check_shard_count "three" "50gb")
    = raise ValueError
  /\ exit_status (ended (main (sample_cluster sample_catalog)
                              (sample_args check_shard_count "three" "50gb")))
     = NAGIOS_WARNING
  /\ main (sample_cluster red_catalog) (sample_args check_shard_size "3" "50gb")
     = raise IndexError
  /\ main (sample_cluster sample_catalog) two_line_pattern_args
     = Run [ok_line check_shard_size ("logs-a" ++ String newline "logs-b")
                    3 200%float]
           (Exit NAGIOS_OK)
  /\ line_breaks (ok_line check_shard_size ("logs-a" ++ String newline "logs-b")
                          3 200%float) = 1%nat.
Proof. repeat split; reflexivity. Qed.

Lemma shard_count_is_not_checked_witness :
  parse_index_info zero_catalog = ret [zero_row]
  /\ map pri [zero_row] = ["0"]
  /\ confirm_es_shard_size "localhost" "9200" (sample_rows ++ [zero_row]) 50%float
     = raise ZeroDivisionError
  /\ ended (confirm_es_shard_size "localhost" "9200" sample_rows 50%float)
     <> Raise ZeroDivisionError.
Proof.
  destruct (shard_count_is_not_checked zero_catalog [zero_row] "localhost" "9200"
              sample_rows zero_row [] 50%float) as (Hpri & Hzero & Hgood).
  split; [reflexivity |]. split; [exact (Hpri eq_refl) |].
  split; [exact (Hzero eq_refl eq_refl eq_refl) | exact (Hgood eq_refl)].
Defined.

(** C7 as stated fails on a catalog line whose count column is 0: the
    parser returns the row with that count, and the size check divides by
    it. *)
Lemma zero_count_reaches_the_division :
  parse_index_info zero_catalog = ret [zero_row]
  /\ shard_count zero_row = Some 0
  /\ confirm_es_shard_size "localhost" "9200" [zero_row] 50%float
     = raise ZeroDivisionError
  /\ main (sample_cluster zero_catalog) (sample_args check_shard_size "3" "50gb")
     = raise ZeroDivisionError.
Proof. repeat split; reflexivity. Qed.

(** * Further properties *)

(** ** The size parser on other texts *)

Lemma unit_free_foreign (d : ascii) (s : string) :
  unit_letter d = true -> unit_free s = true ->
  Str.all (fun c => negb (Ascii.eqb c d)) s = true.
Proof.
  intros Hd. apply all_impl. intros c Hc.
  destruct (Ascii.eqb_spec c d) as [-> |]; [| reflexivity].
  now rewrite Hd in Hc.
Qed.

Lemma replace_foreign_prefix (a t new : string) (d : ascii) (rest : string) :
  Str.all (fun c => negb (Ascii.eqb c d)) a = true ->
  Str.replace_from (String d rest) new O (a ++ t)
    = a ++ Str.replace_from (String d rest) new O t.
Proof.
  induction a as [| c a IH]; intros Ha; [reflexivity |].
  simpl in Ha. apply andb_true_iff in Ha as [Hc Ha]. apply negb_true_iff in Hc.
  cbn [String.append Str.replace_from]. rewrite prefix_head by assumption.
  now rewrite IH.
Qed.

Lemma replace_skip_app (old new w t : string) :
  Str.replace_from old new (String.length w) (w ++ t) = Str.replace_from old new O t.
Proof.
  induction w as [| c w IH]; [reflexivity |].
  cbn [String.length String.append Str.replace_from]. exact IH.
Qed.

Lemma prefix_app (w t : string) : String.prefix w (w ++ t) = true.
Proof.
  induction w as [| c w IH]; simpl; [now destruct t |].
  now destruct (ascii_dec c c).
Qed.

(** At an occurrence of [old] the scan drops it and goes on behind it. *)
Lemma replace_match (d : ascii) (rest new t : string) :
  Str.replace_from (String d rest) new O (String d rest ++ t)
    = new ++ Str.replace_from (String d rest) new O t.
Proof.
  cbn [String.append Str.replace_from].
  pose proof (prefix_app (String d rest) t) as Hp. cbn [String.append] in Hp.
  rewrite Hp. cbn [Str.is_empty String.length Nat.pred].
  now rewrite replace_skip_app.
Qed.

Lemma replace_end (d : ascii) (rest : string) :
  Str.replace_from (String d rest) EmptyString O EmptyString = EmptyString.
Proof. reflexivity. Qed.

Ltac foreign_suffix Hfree :=
  match goal with
  | |- context [Str.endswith ?s (String ?d ?r)] =>
      rewrite (endswith_excluded (fun c => negb (Ascii.eqb c d)) s (String d r));
      [| rewrite ?all_app, ?(unit_free_foreign d _ eq_refl Hfree); reflexivity
       | reflexivity]
  end.

Ltac own_suffix Hfree :=
  rewrite endswith_app; unfold Str.replace;
  match goal with
  | |- context [Str.replace_from (String ?d ?r) _ _ (?b ++ _)] =>
      rewrite (replace_foreign_prefix b _ _ d r (unit_free_foreign d b eq_refl Hfree))
  end;
  rewrite <- (append_nil_r (String _ _)) at 2;
  rewrite replace_match, replace_end, append_nil_r; reflexivity.

(** The branch taken for a text without unit letters before the suffix. *)
Lemma dispatch_tb (body : string) :
  unit_free body = true ->
  get_gb_size_from_string (body ++ "tb")
    = (x <- float body ;; ret (x * 1000)%float).
Proof.
  intros Hfree. unfold get_gb_size_from_string.
  foreign_suffix Hfree. own_suffix Hfree.
Qed.

Lemma dispatch_gb (body : string) :
  unit_free body = true ->
  get_gb_size_from_string (body ++ "gb") = (x <- float body ;; ret x).
Proof. intros Hfree. unfold get_gb_size_from_string. own_suffix Hfree. Qed.

Lemma dispatch_mb (body : string) :
  unit_free body = true ->
  get_gb_size_from_string (body ++ "mb")
    = (x <- float body ;; ret (x * 0.001)%float).
Proof.
  intros Hfree. unfold get_gb_size_from_string.
  do 2 foreign_suffix Hfree. own_suffix Hfree.
Qed.

Lemma dispatch_kb (body : string) :
  unit_free body = true ->
  get_gb_size_from_string (body ++ "kb")
    = (x <- float body ;; ret (x * 0.001 * 0.001)%float).
Proof.
  intros Hfree. unfold get_gb_size_from_string.
  do 3 foreign_suffix Hfree. own_suffix Hfree.
Qed.

Lemma dispatch_b (body : string) :
  unit_free body = true ->
  get_gb_size_from_string (body ++ "b")
    = (x <- float body ;; ret (x * 0.001 * 0.001 * 0.001)%float).
Proof.
  intros Hfree. unfold get_gb_size_from_string.
  do 4 foreign_suffix Hfree. own_suffix Hfree.
Qed.

(** X1.  Whatever stands before the unit suffix is what [float()] is given,
    as long as none of the letters b, g, k, m, t occurs in it: a sign, an
    exponent, [inf], [nan], white space or text that is no number at all
    take the same branch as a plain numeral. *)
Theorem size_parser_dispatch (body : string) :
  unit_free body = true ->
  get_gb_size_from_string (body ++ "tb")
    = (x <- float body ;; ret (x * 1000)%float)
  /\ get_gb_size_from_string (body ++ "gb") = (x <- float body ;; ret x)
  /\ get_gb_size_from_string (body ++ "mb")
     = (x <- float body ;; ret (x * 0.001)%float)
  /\ get_gb_size_from_string (body ++ "kb")
     = (x <- float body ;; ret (x * 0.001 * 0.001)%float)
  /\ get_gb_size_from_string (body ++ "b")
     = (x <- float body ;; ret (x * 0.001 * 0.001 * 0.001)%float).
Proof.
  intros Hfree. split; [now apply dispatch_tb |].
  split; [now apply dispatch_gb |].
  split; [now apply dispatch_mb |].
  split; [now apply dispatch_kb | now apply dispatch_b].
Qed.

Lemma size_parser_dispatch_witness :
  unit_free "1e3" = true
  /\ get_gb_size_from_string "1e3mb" = ret 1%float
  /\ get_gb_size_from_string "inftb" = ret infinity
  /\ get_gb_size_from_string "5pb" = raise ValueError.
Proof.
  split; [reflexivity |]. split; [| split].
  - exact (proj1 (proj2 (proj2 (size_parser_dispatch "1e3" eq_refl)))).
  - exact (proj1 (size_parser_dispatch "inf" eq_refl)).
  - exact (proj2 (proj2 (proj2 (proj2 (size_parser_dispatch "5p" eq_refl))))).
Defined.

Lemma endswith_app_l (a t suffix : string) :
  Str.endswith t suffix = true -> Str.endswith (a ++ t) suffix = true.
Proof.
  intros Ht. induction a as [| c a IH]; [exact Ht |].
  rewrite endswith_unfold. cbn [String.append]. rewrite IH.
  now destruct (String.eqb (String c (a ++ t)) suffix).
Qed.

Ltac foreign_suffix2 Ha Hb :=
  match goal with
  | |- context [Str.endswith ?s (String ?d ?r)] =>
      rewrite (endswith_excluded (fun c => negb (Ascii.eqb c d)) s (String d r));
      [| rewrite ?all_app, (unit_free_foreign d _ eq_refl Ha),
           (unit_free_foreign d _ eq_refl Hb); reflexivity
       | reflexivity]
  end.

Ltac own_suffix2 Ha Hb :=
  match goal with
  | |- context [Str.endswith (?a ++ ?u ++ ?b ++ ?u) ?u] =>
      rewrite (endswith_app_l a (u ++ b ++ u) u
                 (endswith_app_l u (b ++ u) u (endswith_app b u)))
  end;
  unfold Str.replace;
  match goal with
  | |- context [Str.replace_from (String ?d ?r) _ _ (?a ++ _ ++ ?b ++ _)] =>
      rewrite (replace_foreign_prefix a _ _ d r (unit_free_foreign d a eq_refl Ha)),
        replace_match,
        (replace_foreign_prefix b _ _ d r (unit_free_foreign d b eq_refl Hb))
  end;
  rewrite <- (append_nil_r (String _ _)) at 2;
  rewrite replace_match, replace_end; cbn [String.append];
  rewrite !append_nil_r; reflexivity.

(** X2.  The suffix is removed wherever it occurs, not only at the end:
    when the unit is also written inside the token, the two parts around it
    are glued together and read as one number. *)
Theorem size_parser_removes_every_unit (a b : string) :
  unit_free a = true -> unit_free b = true ->
  get_gb_size_from_string (a ++ "tb" ++ b ++ "tb")
    = (x <- float (a ++ b) ;; ret (x * 1000)%float)
  /\ get_gb_size_from_string (a ++ "gb" ++ b ++ "gb")
     = (x <- float (a ++ b) ;; ret x)
  /\ get_gb_size_from_string (a ++ "mb" ++ b ++ "mb")
     = (x <- float (a ++ b) ;; ret (x * 0.001)%float)
  /\ get_gb_size_from_string (a ++ "kb" ++ b ++ "kb")
     = (x <- float (a ++ b) ;; ret (x * 0.001 * 0.001)%float)
  /\ get_gb_size_from_string (a ++ "b" ++ b ++ "b")
     = (x <- float (a ++ b) ;; ret (x * 0.001 * 0.001 * 0.001)%float).
Proof.
  intros Ha Hb. unfold get_gb_size_from_string. repeat split.
  - foreign_suffix2 Ha Hb. own_suffix2 Ha Hb.
  - own_suffix2 Ha Hb.
  - do 2 foreign_suffix2 Ha Hb. own_suffix2 Ha Hb.
  - do 3 foreign_suffix2 Ha Hb. own_suffix2 Ha Hb.
  - do 4 foreign_suffix2 Ha Hb. own_suffix2 Ha Hb.
Qed.

Lemma size_parser_removes_every_unit_witness :
  unit_free "1" = true /\ unit_free "5" = true
  /\ get_gb_size_from_string "1gb5gb" = ret 15%float.
Proof.
  split; [reflexivity |]. split; [reflexivity |].
  exact (proj1 (proj2 (size_parser_removes_every_unit "1" "5" eq_refl eq_refl))).
Defined.

(** X3.  The parser refuses a string exactly when its last character is
    not a lower-case b.  Every string that ends in b, whatever stands
    before it, goes to [float()]: the parser returns a value or raises
    [ValueError]; it prints nothing and does not exit. *)
Theorem size_parser_outcomes (s : string) :
  (Str.endswith s "b" = false ->
   get_gb_size_from_string s = Run [refusal s] (Exit NAGIOS_CRITICAL))
  /\ (Str.endswith s "b" = true ->
      (exists x, get_gb_size_from_string s = ret x)
      \/ get_gb_size_from_string s = raise ValueError).
Proof.
  rewrite <- recognized_b. unfold recognized, get_gb_size_from_string, float.
  split.
  - intros Hnone. repeat (apply orb_false_iff in Hnone as [Hnone ?]).
    repeat match goal with
           | H : Str.endswith s _ = false |- _ => rewrite H; clear H
           end.
    reflexivity.
  - repeat match goal with
           | |- context [if Str.endswith s ?u then _ else _] =>
               destruct (Str.endswith s u);
               [intros _;
                match goal with
                | |- context [py_float ?t] =>
                    destruct (py_float t); [left; rewrite bind_ret; eauto | now right]
                end |]
           end.
    discriminate.
Qed.

Lemma size_parser_outcomes_witness :
  (Str.endswith "50GB" "b" = false
   /\ get_gb_size_from_string "50GB" = Run [refusal "50GB"] (Exit NAGIOS_CRITICAL))
  /\ (Str.endswith "5pb" "b" = true
      /\ ((exists x, get_gb_size_from_string "5pb" = ret x)
          \/ get_gb_size_from_string "5pb" = raise ValueError)).
Proof.
  split; (split; [reflexivity |]).
  - exact (proj1 (size_parser_outcomes "50GB") eq_refl).
  - exact (proj2 (size_parser_outcomes "5pb") eq_refl).
Defined.

Lemma numeral_char_unit_free (s : string) :
  Str.all numeral_char s = true -> unit_free s = true.
Proof.
  apply all_impl. intros c Hc. unfold unit_letter.
  now rewrite (numeral_char_neq c "b" Hc eq_refl), (numeral_char_neq c "g" Hc eq_refl),
    (numeral_char_neq c "k" Hc eq_refl), (numeral_char_neq c "m" Hc eq_refl),
    (numeral_char_neq c "t" Hc eq_refl).
Qed.

(** [float()] of a numeral and of the numeral behind a minus sign. *)
Lemma py_float_minus (num : string) :
  decimal_numeral num = true ->
  exists x, py_float num = Some x
            /\ py_float ("-" ++ num) = Some (- x)%float.
Proof.
  intros Hnum. pose proof (decimal_numeral_chars num Hnum) as Hchars.
  destruct (decimal_numeral_parses num Hnum) as (m & e & Hparse).
  exists (round_decimal m e).
  assert (Hsign : split_sign num = (false, num)).
  { destruct num as [| c r]; [reflexivity |].
    simpl in Hchars. apply andb_true_iff in Hchars as [Hc _].
    destruct (numeral_char_plain c Hc) as (_ & _ & _ & _ & Hsign). apply Hsign. }
  assert (Hnone : Str.all (fun c => negb (isspace_c c)) num = true).
  { apply (all_impl numeral_char); [| assumption].
    intros c Hc. destruct (numeral_char_plain c Hc) as (_ & -> & _). reflexivity. }
  split.
  - unfold py_float, underscores_ok.
    destruct (underscores_from_none Ascii.zero num eq_refl Hchars) as [-> ->].
    now rewrite (strip_numeral num Hchars), Hsign, (inf_or_nan_numeral num Hchars), Hparse.
  - unfold py_float, underscores_ok. cbn [String.append underscores_from].
    destruct (underscores_from_none "-" num eq_refl Hchars) as [Hu Hr].
    change (is_underscore "-") with false. change (is_underscore Ascii.zero) with false.
    cbn iota. rewrite Hu. cbn [andb remove_underscores].
    change (is_underscore "-") with false. cbn iota. rewrite Hr.
    unfold Str.strip. cbn [Str.lstrip]. change (isspace_c "-") with false. cbn iota.
    rewrite (rstrip_none isspace_c (String "-" num))
      by (cbn [Str.all]; now rewrite Hnone).
    cbn [split_sign].
    now rewrite (inf_or_nan_numeral num Hchars), Hparse.
Qed.

(** X4.  A minus sign before the numeral is accepted: the parser returns
    the negated value, scaled as for the numeral itself.  No size is
    refused for being negative. *)
Theorem size_parser_accepts_negative (num : string) :
  decimal_numeral num = true ->
  exists x : PrimFloat.float,
    py_float num = Some x
    /\ get_gb_size_from_string ("-" ++ num ++ "tb") = ret (- x * 1000)%float
    /\ get_gb_size_from_string ("-" ++ num ++ "gb") = ret (- x)%float
    /\ get_gb_size_from_string ("-" ++ num ++ "mb") = ret (- x * 0.001)%float
    /\ get_gb_size_from_string ("-" ++ num ++ "kb")
       = ret (- x * 0.001 * 0.001)%float
    /\ get_gb_size_from_string ("-" ++ num ++ "b")
       = ret (- x * 0.001 * 0.001 * 0.001)%float.
Proof.
  intros Hnum. destruct (py_float_minus num Hnum) as (x & Hx & Hneg).
  exists x. split; [exact Hx |].
  assert (Hfree : unit_free ("-" ++ num) = true).
  { cbn [String.append]. unfold unit_free. cbn [Str.all].
    change (negb (unit_letter "-")) with true.
    apply (numeral_char_unit_free num (decimal_numeral_chars num Hnum)). }
  rewrite <- !append_assoc.
  rewrite (dispatch_tb _ Hfree), (dispatch_gb _ Hfree), (dispatch_mb _ Hfree),
    (dispatch_kb _ Hfree), (dispatch_b _ Hfree).
  unfold float. rewrite Hneg, !bind_ret. repeat split.
Qed.

Lemma size_parser_accepts_negative_witness :
  decimal_numeral "5" = true
  /\ get_gb_size_from_string "-5gb" = ret (-5)%float
  /\ get_gb_size_from_string "-5tb" = ret (-5000)%float.
Proof.
  split; [reflexivity |].
  destruct (size_parser_accepts_negative "5" eq_refl)
    as (x & Hx & Htb & Hgb & _).
  vm_compute in Hx. injection Hx as <-. split; [exact Hgb | exact Htb].
Defined.

(** ** The evaluators on other inputs *)

Lemma for_in_exits {A S} (xs : list A) (x : A) (ys : list A)
    (body : A -> S -> M S) (out : list line) (status : Z) :
  (forall g acc, In g xs -> exists acc', body g acc = ret acc') ->
  (forall acc, body x acc = Run out (Exit status)) ->
  forall acc, for_in (xs ++ x :: ys) body acc = Run out (Exit status).
Proof.
  intros Hxs Hx. induction xs as [| g xs IH]; intros acc; simpl.
  - now rewrite Hx.
  - destruct (Hxs g acc (or_introl eq_refl)) as [acc' ->]. rewrite bind_ret.
    apply IH. intros; apply Hxs; now right.
Qed.

Lemma refuses_without_b (s : string) :
  Str.endswith s "b" = false ->
  get_gb_size_from_string s = Run [refusal s] (Exit NAGIOS_CRITICAL).
Proof.
  rewrite <- recognized_b. unfold recognized, get_gb_size_from_string.
  intros Hnone. repeat (apply orb_false_iff in Hnone as [Hnone ?]).
  repeat match goal with
         | H : Str.endswith s _ = false |- _ => rewrite H; clear H
         end.
  reflexivity.
Qed.

Lemma good_count_rows (good : list IndexRecord) (min_count : Z) :
  forallb (fun r => defined (shard_count r)) good = true ->
  forall g acc, In g good ->
    exists acc',
      (number_of_shards <- int (pri g) ;;
       if number_of_shards <? min_count
       then ret (acc ++ [index g])%list
       else ret acc) = ret acc'.
Proof.
  intros Hgood g acc Hin. rewrite count_body; [eauto |].
  now apply (proj1 (forallb_forall _ good) Hgood).
Qed.

Lemma good_size_rows (good : list IndexRecord) (max_size_gb : PrimFloat.float) :
  forallb (fun r => defined (avg_shard_size_gb r)) good = true ->
  forall g acc, In g good ->
    exists acc',
      (number_of_shards <- int (pri g) ;;
       size <- get_gb_size_from_string (pri_store_size g) ;;
       avg <- truediv size number_of_shards ;;
       if gt avg max_size_gb
       then ret (acc ++ [index g])%list
       else ret acc) = ret acc'.
Proof.
  intros Hgood g acc Hin. rewrite size_body; [eauto |].
  now apply (proj1 (forallb_forall _ good) Hgood).
Qed.

(** X5.  Both evaluators read the count first: at the first row whose count
    is not an integer they raise [ValueError], whatever the rows after it
    and, in the size check, whatever the size token of that row. *)
Theorem evaluators_reject_bad_count (es_host es_port : string)
    (good : list IndexRecord) (r : IndexRecord) (rest : list IndexRecord)
    (min_count : Z) (max_size_gb : PrimFloat.float) :
  shard_count r = None ->
  (forallb (fun g => defined (shard_count g)) good = true ->
   confirm_es_shard_count es_host es_port (good ++ r :: rest) min_count
     = raise ValueError)
  /\ (forallb (fun g => defined (avg_shard_size_gb g)) good = true ->
      confirm_es_shard_size es_host es_port (good ++ r :: rest) max_size_gb
        = raise ValueError).
Proof.
  intros Hbad. unfold shard_count in Hbad. split; intros Hgood.
  - unfold confirm_es_shard_count. apply for_in_raises.
    + now apply good_count_rows.
    + intros acc. unfold int. now rewrite Hbad.
  - unfold confirm_es_shard_size. apply for_in_raises.
    + now apply good_size_rows.
    + intros acc. unfold int. now rewrite Hbad.
Qed.

Lemma evaluators_reject_bad_count_witness :
  shard_count (Row "logs-x" "n/a" "1pb") = None
  /\ confirm_es_shard_count "localhost" "9200"
       (sample_rows ++ [Row "logs-x" "n/a" "1pb"]) 3 = raise ValueError
  /\ confirm_es_shard_size "localhost" "9200"
       (sample_rows ++ [Row "logs-x" "n/a" "1pb"]) 50%float = raise ValueError.
Proof.
  destruct (evaluators_reject_bad_count "localhost" "9200" sample_rows
              (Row "logs-x" "n/a" "1pb") [] 3 50%float eq_refl) as [Hc Hs].
  split; [reflexivity |]. split; [exact (Hc eq_refl) | exact (Hs eq_refl)].
Defined.

(** X6.  The size check ends the program by itself: at the first row whose
    count is an integer and whose size token does not end in b, it prints
    the size parser's error line for that token and exits with the CRITICAL
    status, without looking at the rows after it. *)
Theorem size_check_exits_on_unknown_unit (es_host es_port : string)
    (good : list IndexRecord) (r : IndexRecord) (rest : list IndexRecord)
    (max_size_gb : PrimFloat.float) :
  forallb (fun g => defined (avg_shard_size_gb g)) good = true ->
  defined (shard_count r) = true ->
  Str.endswith (pri_store_size r) "b" = false ->
  confirm_es_shard_size es_host es_port (good ++ r :: rest) max_size_gb
    = Run [refusal (pri_store_size r)] (Exit NAGIOS_CRITICAL).
Proof.
  intros Hgood Hcount Hunit. unfold confirm_es_shard_size. apply for_in_exits.
  - now apply good_size_rows.
  - intros acc. unfold shard_count in Hcount. unfold int.
    destruct (py_int (pri r)); [| discriminate].
    now rewrite bind_ret, (refuses_without_b _ Hunit).
Qed.

Lemma size_check_exits_on_unknown_unit_witness :
  forallb (fun g => defined (avg_shard_size_gb g)) sample_rows = true
  /\ defined (shard_count (Row "logs-x" "1" "1.5PB")) = true
  /\ Str.endswith "1.5PB" "b" = false
  /\ confirm_es_shard_size "localhost" "9200"
       (sample_rows ++ [Row "logs-x" "1" "1.5PB"; Row "logs-y" "1" "900gb"]) 50%float
     = Run [refusal "1.5PB"] (Exit NAGIOS_CRITICAL).
Proof.
  repeat (split; [reflexivity |]).
  exact (size_check_exits_on_unknown_unit "localhost" "9200" sample_rows
           (Row "logs-x" "1" "1.5PB") [Row "logs-y" "1" "900gb"] 50%float
           eq_refl eq_refl eq_refl).
Defined.

Lemma gt_nan (x : PrimFloat.float) : gt x nan = false.
Proof.
  unfold gt. rewrite ltb_spec.
  replace (Prim2SF nan) with S754_nan by reflexivity. reflexivity.
Qed.

Lemma gt_infinity (x : PrimFloat.float) : gt x infinity = false.
Proof.
  unfold gt. rewrite ltb_spec.
  replace (Prim2SF infinity) with (S754_infinity false) by reflexivity.
  destruct (Prim2SF x) as [s | s | | s m e]; try destruct s; reflexivity.
Qed.

Lemma size_check_with_inert_bound (es_host es_port : string)
    (records : list IndexRecord) (bound : PrimFloat.float) :
  (forall x, gt x bound = false) ->
  forallb (fun r => defined (avg_shard_size_gb r)) records = true ->
  confirm_es_shard_size es_host es_port records bound = ret [].
Proof.
  intros Hinert Hwf. unfold confirm_es_shard_size.
  rewrite (for_in_collect records _ (too_big bound) index).
  - rewrite filter_none; [reflexivity |].
    apply forallb_forall. intros r _. unfold too_big.
    destruct (avg_shard_size_gb r); [now rewrite Hinert | reflexivity].
  - intros r acc Hin. apply size_body.
    now apply (proj1 (forallb_forall _ records) Hwf).
Qed.

(** X7.  The size parser turns "nangb" into NaN and "infgb" into infinity,
    and with either as the bound the size check reports no index at all,
    whatever the sizes of the well-formed rows: no average is above
    infinity, and no comparison with NaN holds. *)
Theorem size_check_never_fails_for_nan_or_inf (es_host es_port : string)
    (records : list IndexRecord) :
  forallb (fun r => defined (avg_shard_size_gb r)) records = true ->
  get_gb_size_from_string "nangb" = ret nan
  /\ get_gb_size_from_string "infgb" = ret infinity
  /\ confirm_es_shard_size es_host es_port records nan = ret []
  /\ confirm_es_shard_size es_host es_port records infinity = ret [].
Proof.
  intros Hwf. split; [reflexivity |]. split; [reflexivity |]. split.
  - apply size_check_with_inert_bound; [apply gt_nan | exact Hwf].
  - apply size_check_with_inert_bound; [apply gt_infinity | exact Hwf].
Qed.

Lemma size_check_never_fails_for_nan_or_inf_witness :
  forallb (fun r => defined (avg_shard_size_gb r))
          [Row "huge" "1" "900000tb"] = true
  /\ confirm_es_shard_size "localhost" "9200" [Row "huge" "1" "900000tb"] nan
     = ret []
  /\ confirm_es_shard_size "localhost" "9200" [Row "huge" "1" "900000tb"] 50%float
     = ret ["huge"].
Proof.
  split; [reflexivity |]. split; [| reflexivity].
  exact (proj1 (proj2 (proj2 (size_check_never_fails_for_nan_or_inf
                                "localhost" "9200" [Row "huge" "1" "900000tb"]
                                eq_refl)))).
Defined.

Lemma first_failure {A} (p : A -> bool) (xs : list A) :
  forallb p xs = false ->
  exists good x rest,
    xs = (good ++ x :: rest)%list /\ forallb p good = true /\ p x = false.
Proof.
  induction xs as [| y xs IH]; simpl; [discriminate |].
  destruct (p y) eqn:Hy; simpl.
  - intros H. destruct (IH H) as (good & x & rest & -> & Hgood & Hx).
    exists (y :: good), x, rest. simpl. now rewrite Hy, Hgood.
  - intros _. now exists [], y, xs.
Qed.

(** X8.  The count check never prints and never exits, and the only
    exception it raises is [ValueError]: it returns the names of the rows
    below the minimum when every count is an integer, and raises
    [ValueError] otherwise. *)
Theorem count_check_outcomes (es_host es_port : string)
    (records : list IndexRecord) (min_count : Z) :
  confirm_es_shard_count es_host es_port records min_count
  = if forallb (fun r => defined (shard_count r)) records
    then ret (map index (filter (too_few min_count) records))
    else raise ValueError.
Proof.
  destruct (forallb (fun r => defined (shard_count r)) records) eqn:Hwf.
  - unfold confirm_es_shard_count.
    rewrite (for_in_collect records _ (too_few min_count) index); [reflexivity |].
    intros r acc Hin. apply count_body.
    now apply (proj1 (forallb_forall _ records) Hwf).
  - destruct (first_failure _ _ Hwf) as (good & r & rest & -> & Hgood & Hbad).
    unfold confirm_es_shard_count. apply for_in_raises.
    + now apply good_count_rows.
    + intros acc. unfold shard_count in Hbad. unfold int.
      destruct (py_int (pri r)); [discriminate | reflexivity].
Qed.

(** X9.  Raising the minimum never takes an index off the report: every
    name the count check returns for a minimum is also returned for any
    larger minimum. *)
Theorem count_check_monotone (es_host es_port : string)
    (records : list IndexRecord) (min1 min2 : Z) (names1 names2 : list string) :
  min1 <= min2 ->
  confirm_es_shard_count es_host es_port records min1 = ret names1 ->
  confirm_es_shard_count es_host es_port records min2 = ret names2 ->
  incl names1 names2.
Proof.
  intros Hle H1 H2.
  assert (Hwf : forallb (fun r => defined (shard_count r)) records = true).
  { destruct (forallb (fun r => defined (shard_count r)) records) eqn:Hwf;
      [reflexivity |].
    destruct (first_failure _ _ Hwf) as (good & r & rest & -> & Hgood & Hbad).
    unfold confirm_es_shard_count in H1.
    rewrite (for_in_raises good r rest _ ValueError) in H1; [discriminate | |].
    - now apply good_count_rows.
    - intros acc. unfold shard_count in Hbad. unfold int.
      destruct (py_int (pri r)); [discriminate | reflexivity]. }
  unfold confirm_es_shard_count in H1, H2.
  rewrite (for_in_collect records _ (too_few min1) index) in H1
    by (intros r acc Hin; apply count_body;
        now apply (proj1 (forallb_forall _ records) Hwf)).
  rewrite (for_in_collect records _ (too_few min2) index) in H2
    by (intros r acc Hin; apply count_body;
        now apply (proj1 (forallb_forall _ records) Hwf)).
  inversion H1; inversion H2; subst. simpl.
  intros name Hin. apply in_map_iff in Hin as (r & <- & Hr).
  apply filter_In in Hr as [Hr Hfew]. apply in_map, filter_In. split; [exact Hr |].
  unfold too_few in *. destruct (shard_count r) as [n |]; [| discriminate].
  apply Z.ltb_lt in Hfew. apply Z.ltb_lt. lia.
Qed.

Lemma count_check_monotone_witness :
  3 <= 6
  /\ confirm_es_shard_count "localhost" "9200"
       [Row "idx1" "1" "1gb"; Row "idx2" "5" "1gb"] 3 = ret ["idx1"]
  /\ confirm_es_shard_count "localhost" "9200"
       [Row "idx1" "1" "1gb"; Row "idx2" "5" "1gb"] 6 = ret ["idx1"; "idx2"]
  /\ incl ["idx1"] ["idx1"; "idx2"].
Proof.
  assert (H36 : 3 <= 6) by lia.
  split; [exact H36 |]. split; [reflexivity |]. split; [reflexivity |].
  exact (count_check_monotone "localhost" "9200"
           [Row "idx1" "1" "1gb"; Row "idx2" "5" "1gb"] 3 6
           ["idx1"] ["idx1"; "idx2"] H36 eq_refl eq_refl).
Defined.

(** X10.  On well-formed rows both evaluators work row by row: the report
    for two catalogs put one after the other is the report for the first
    followed by the report for the second. *)
Theorem evaluators_concatenate (es_host es_port : string)
    (xs ys : list IndexRecord) (min_count : Z) (max_size_gb : PrimFloat.float) :
  (forallb (fun r => defined (shard_count r)) (xs ++ ys) = true ->
   exists a b,
     confirm_es_shard_count es_host es_port xs min_count = ret a
     /\ confirm_es_shard_count es_host es_port ys min_count = ret b
     /\ confirm_es_shard_count es_host es_port (xs ++ ys) min_count
        = ret (a ++ b)%list)
  /\ (forallb (fun r => defined (avg_shard_size_gb r)) (xs ++ ys) = true ->
      exists a b,
        confirm_es_shard_size es_host es_port xs max_size_gb = ret a
        /\ confirm_es_shard_size es_host es_port ys max_size_gb = ret b
        /\ confirm_es_shard_size es_host es_port (xs ++ ys) max_size_gb
           = ret (a ++ b)%list).
Proof.
  split; intros Hwf; pose proof Hwf as Hboth;
    rewrite forallb_app in Hboth; apply andb_true_iff in Hboth as [Hxs Hys].
  - exists (map index (filter (too_few min_count) xs)),
           (map index (filter (too_few min_count) ys)).
    unfold confirm_es_shard_count.
    rewrite (for_in_collect xs _ (too_few min_count) index),
      (for_in_collect ys _ (too_few min_count) index),
      (for_in_collect (xs ++ ys) _ (too_few min_count) index);
      try (intros r acc Hin; apply count_body;
           match goal with
           | H : forallb _ ?l = true, Hin : In r ?l |- _ =>
               exact (proj1 (forallb_forall _ l) H r Hin)
           end).
    now rewrite filter_app, map_app.
  - exists (map index (filter (too_big max_size_gb) xs)),
           (map index (filter (too_big max_size_gb) ys)).
    unfold confirm_es_shard_size.
    rewrite (for_in_collect xs _ (too_big max_size_gb) index),
      (for_in_collect ys _ (too_big max_size_gb) index),
      (for_in_collect (xs ++ ys) _ (too_big max_size_gb) index);
      try (intros r acc Hin; apply size_body;
           match goal with
           | H : forallb _ ?l = true, Hin : In r ?l |- _ =>
               exact (proj1 (forallb_forall _ l) H r Hin)
           end).
    now rewrite filter_app, map_app.
Qed.

Lemma evaluators_concatenate_witness :
  forallb (fun r => defined (avg_shard_size_gb r)) (sample_rows ++ sample_rows) = true
  /\ confirm_es_shard_size "localhost" "9200" (sample_rows ++ sample_rows) 50%float
     = ret ["logs-b"; "logs-b"]
  /\ confirm_es_shard_count "localhost" "9200" (sample_rows ++ sample_rows) 2
     = ret ["logs-a"; "logs-a"].
Proof.
  destruct (evaluators_concatenate "localhost" "9200" sample_rows sample_rows
              2 50%float) as [Hcount Hsize].
  split; [reflexivity |]. split.
  - destruct (Hsize eq_refl) as (a & b & Ha & Hb & Hab).
    vm_compute in Ha. injection Ha as <-. vm_compute in Hb. injection Hb as <-.
    exact Hab.
  - destruct (Hcount eq_refl) as (a & b & Ha & Hb & Hab).
    vm_compute in Ha. injection Ha as <-. vm_compute in Hb. injection Hb as <-.
    exact Hab.
Defined.

(** ** The catalog parser on other inputs *)

Lemma split_on_nonempty (sep : ascii) (s : string) : Str.split_on sep s <> [].
Proof.
  destruct s as [| c s]; simpl; [discriminate |].
  destruct (Ascii.eqb c sep); [discriminate |].
  destruct (Str.split_on sep s); discriminate.
Qed.

(** The pieces of two texts joined by the separator are the pieces of the
    one followed by the pieces of the other. *)
Lemma split_on_app (sep : ascii) (a b : string) :
  Str.split_on sep (a ++ String sep b)
    = (Str.split_on sep a ++ Str.split_on sep b)%list.
Proof.
  induction a as [| c a IH]; cbn [String.append Str.split_on].
  - now rewrite Ascii.eqb_refl.
  - destruct (Ascii.eqb c sep); rewrite IH; [reflexivity |].
    pose proof (split_on_nonempty sep a) as Hne.
    destruct (Str.split_on sep a) as [| w ws]; [contradiction | reflexivity].
Qed.

(** What the loop of the parser does on a list of lines. *)
Lemma parse_lines_outcome (lines : list string) (acc : list IndexRecord) :
  for_in lines parse_line acc
  = if forallb (fun line => skipped line || has_columns line) lines
    then ret (acc ++ map row_of (filter (fun line => negb (skipped line)) lines))%list
    else raise IndexError.
Proof.
  destruct (forallb _ lines) eqn:Hcols.
  - now apply parse_lines_rows.
  - now apply parse_lines_short.
Qed.

(** X11.  The parser works line by line: the rows of two texts joined by a
    line break are the rows of the first followed by the rows of the
    second, and the parse fails as soon as one of the two fails.  In
    particular a line break at the end of the text changes nothing. *)
Theorem parse_index_info_concatenates (a b : string) :
  parse_index_info (a ++ String newline b)
    = (ra <- parse_index_info a ;;
       rb <- parse_index_info b ;;
       ret (ra ++ rb)%list)
  /\ parse_index_info (a ++ String newline EmptyString) = parse_index_info a.
Proof.
  assert (Hjoin : forall t,
             parse_index_info (a ++ String newline t)
             = (ra <- parse_index_info a ;;
                rb <- parse_index_info t ;;
                ret (ra ++ rb)%list)).
  { intros t. rewrite !parse_index_info_loop, split_on_app.
    rewrite !parse_lines_outcome, forallb_app, filter_app, map_app.
    destruct (forallb _ (Str.split_on newline a)); [| reflexivity].
    rewrite bind_ret.
    destruct (forallb _ (Str.split_on newline t)); [| reflexivity].
    now rewrite bind_ret. }
  split; [apply Hjoin |].
  rewrite Hjoin, parse_index_info_loop, parse_lines_outcome.
  destruct (forallb _ (Str.split_on newline a)); [| reflexivity].
  rewrite bind_ret. cbn. now rewrite !app_nil_r.
Qed.

(** X12.  Every row the parser returns carries three proper fields: the
    name, the count and the size token are not empty and contain no white
    space. *)
Theorem parsed_rows_have_fields (raw : string) (rs : list IndexRecord) :
  parse_index_info raw = ret rs ->
  Forall (fun r => is_field (index r) /\ is_field (pri r)
                   /\ is_field (pri_store_size r)) rs.
Proof.
  rewrite parse_index_info_loop, parse_lines_outcome.
  destruct (forallb _ (Str.split_on newline raw)) eqn:Hcols; [| discriminate].
  intros H. inversion H; subst. clear H. cbn [app].
  apply Forall_forall. intros r Hin.
  apply in_map_iff in Hin as (line & <- & Hline).
  apply filter_In in Hline as [Hline Hdata].
  apply (proj1 (forallb_forall _ _) Hcols) in Hline.
  apply negb_true_iff in Hdata. rewrite Hdata in Hline. simpl in Hline.
  unfold has_columns in Hline. apply Nat.leb_le in Hline.
  pose proof (split_from_fields line EmptyString eq_refl) as Hfields.
  fold (Str.split line) in Hfields. fold (fields line) in Hfields.
  rewrite Forall_forall in Hfields.
  unfold row_of; cbn [index pri pri_store_size].
  repeat split; apply Hfields, nth_In; lia.
Qed.

Lemma parsed_rows_have_fields_witness :
  parse_index_info sample_catalog = ret sample_rows
  /\ Forall (fun r => is_field (index r) /\ is_field (pri r)
                      /\ is_field (pri_store_size r)) sample_rows.
Proof.
  split; [reflexivity |].
  exact (parsed_rows_have_fields sample_catalog sample_rows eq_refl).
Defined.

Lemma for_in_ext {A S} (xs : list A) (body1 body2 : A -> S -> M S) :
  (forall x s, body1 x s = body2 x s) ->
  forall s, for_in xs body1 s = for_in xs body2 s.
Proof.
  intros Hbody. induction xs as [| x xs IH]; intros s; simpl; [reflexivity |].
  rewrite Hbody. now apply bind_ext.
Qed.

(** X13.  Joining the fields of a line with single spaces and splitting
    again gives the fields back, so the join in the parser's loop has no
    effect: the parser returns what the same loop returns when every line
    that is not skipped is split once and fields 2, 3 and 7 are read off
    that split. *)
Theorem collapsing_is_redundant (es_index_info : string) :
  parse_index_info es_index_info
  = for_in (Str.split_on newline es_index_info)
      (fun line index_list =>
         if String.eqb line EmptyString || Str.contains " index " line
            || Str.contains " close " line
         then ret index_list
         else
           let l := Str.split line in
           index <- getitem l 2 ;;
           pri <- getitem l 3 ;;
           pri_store_size <- getitem l 7 ;;
           ret (index_list ++ [Row index pri pri_store_size])%list)
      [].
Proof.
  unfold parse_index_info. apply for_in_ext. intros line index_list.
  destruct (String.eqb line EmptyString || Str.contains " index " line
            || Str.contains " close " line); [reflexivity |].
  cbv zeta. now rewrite split_collapsed.
Qed.

(** ** Whole runs *)

(** X14.  Both bounds are read before anything else, whatever the action:
    a minimum that is not an integer ends the run with [ValueError], and a
    maximum that does not end in b ends it with the size parser's error
    line and the CRITICAL status.  Neither run depends on what is outside:
    the cluster is not asked. *)
Theorem bad_bounds_end_the_run (world : Outside) (l : Namespace) :
  (py_int (min_shard_count l) = None -> main world l = raise ValueError)
  /\ (defined (py_int (min_shard_count l)) = true ->
      Str.endswith (max_shard_size l) "b" = false ->
      main world l = Run [refusal (max_shard_size l)] (Exit NAGIOS_CRITICAL)).
Proof.
  split.
  - intros Hmin. rewrite main_steps. unfold int. now rewrite Hmin.
  - intros Hmin Hmax. rewrite main_steps. unfold int.
    destruct (py_int (min_shard_count l)); [| discriminate].
    now rewrite bind_ret, (refuses_without_b _ Hmax).
Qed.

Lemma bad_bounds_end_the_run_witness :
  main (World (fun _ => Failed ClientError) (fun _ => Failed ClientError))
       (sample_args check_shard_size "3.5" "50gb") = raise ValueError
  /\ main (World (fun _ => Failed ClientError) (fun _ => Failed ClientError))
          (sample_args check_shard_count "3" "50GB")
     = Run [refusal "50GB"] (Exit NAGIOS_CRITICAL).
Proof.
  split.
  - exact (proj1 (bad_bounds_end_the_run
                    (World (fun _ => Failed ClientError) (fun _ => Failed ClientError))
                    (sample_args check_shard_size "3.5" "50gb")) eq_refl).
  - exact (proj2 (bad_bounds_end_the_run
                    (World (fun _ => Failed ClientError) (fun _ => Failed ClientError))
                    (sample_args check_shard_count "3" "50GB")) eq_refl eq_refl).
Defined.

(** X15.  With both bounds accepted, what goes wrong on the way to the
    catalog leaves the script as it is, with nothing printed: the exception
    of the TLS context, then [ValueError] for a port that is not an
    integer, then the exception of the client. *)
Theorem failures_on_the_way_escape (world : Outside) (l : Namespace) (e : exn) :
  defined (py_int (min_shard_count l)) = true ->
  defined (parse_size (max_shard_size l)) = true ->
  (create_default_context world (ca_file l) = Failed e -> main world l = raise e)
  /\ (create_default_context world (ca_file l) = Done tt ->
      py_int (es_port l) = None ->
      main world l = raise ValueError)
  /\ (create_default_context world (ca_file l) = Done tt ->
      defined (py_int (es_port l)) = true ->
      cat_indices world l = Failed e ->
      main world l = raise e).
Proof.
  intros Hmin Hmax. rewrite main_steps. unfold int.
  destruct (py_int (min_shard_count l)) as [min_count |]; [| discriminate].
  destruct (parse_size (max_shard_size l)) as [max_size_gb |] eqn:Hsize;
    [| discriminate].
  rewrite bind_ret, (parse_size_ret _ _ Hsize), bind_ret.
  split; [| split].
  - now intros ->.
  - intros -> Hport. cbn [call]. now rewrite bind_ret, Hport.
  - intros -> Hport ->. cbn [call]. rewrite bind_ret.
    destruct (py_int (es_port l)); [| discriminate]. now rewrite bind_ret.
Qed.

Lemma failures_on_the_way_escape_witness :
  main (World (fun _ => Done tt) (fun _ => Failed ClientError))
       (sample_args check_shard_size "3" "50gb") = raise ClientError
  /\ main (World (fun _ => Failed ClientError) (fun _ => Done sample_catalog))
          (sample_args check_shard_size "3" "50gb") = raise ClientError.
Proof.
  split.
  - exact (proj2 (proj2 (failures_on_the_way_escape
                           (World (fun _ => Done tt) (fun _ => Failed ClientError))
                           (sample_args check_shard_size "3" "50gb") ClientError
                           eq_refl eq_refl)) eq_refl eq_refl eq_refl).
  - exact (proj1 (failures_on_the_way_escape
                    (World (fun _ => Failed ClientError) (fun _ => Done sample_catalog))
                    (sample_args check_shard_size "3" "50gb") ClientError
                    eq_refl eq_refl) eq_refl).
Defined.

(** The run up to the catalog, when nothing fails on the way. *)
Lemma main_from_catalog (world : Outside) (l : Namespace)
    (min_count : Z) (max_size_gb : PrimFloat.float) (raw : string) :
  py_int (min_shard_count l) = Some min_count ->
  parse_size (max_shard_size l) = Some max_size_gb ->
  create_default_context world (ca_file l) = Done tt ->
  defined (py_int (es_port l)) = true ->
  cat_indices world l = Done raw ->
  main world l
  = (records <- parse_index_info raw ;;
     failed <- evaluate l records min_count max_size_gb ;;
     report l min_count max_size_gb failed).
Proof.
  intros Hmin Hmax Htls Hport Hcat. rewrite main_steps. unfold int.
  rewrite Hmin, bind_ret, (parse_size_ret _ _ Hmax), bind_ret, Htls.
  cbn [call]. rewrite bind_ret.
  destruct (py_int (es_port l)); [| discriminate].
  rewrite bind_ret, Hcat. cbn [call]. now rewrite bind_ret.
Qed.

(** X16.  When the catalog arrives and one of its lines that is not
    skipped has fewer than eight fields, the run ends with [IndexError] for
    either action: no index is evaluated and nothing is printed. *)
Theorem short_line_ends_the_run (world : Outside) (l : Namespace)
    (min_count : Z) (max_size_gb : PrimFloat.float) (raw : string) :
  py_int (min_shard_count l) = Some min_count ->
  parse_size (max_shard_size l) = Some max_size_gb ->
  create_default_context world (ca_file l) = Done tt ->
  defined (py_int (es_port l)) = true ->
  cat_indices world l = Done raw ->
  forallb has_columns (data_lines raw) = false ->
  main world l = raise IndexError.
Proof.
  intros Hmin Hmax Htls Hport Hcat Hshort.
  rewrite (main_from_catalog world l min_count max_size_gb raw) by assumption.
  rewrite data_lines_columns in Hshort.
  now rewrite parse_index_info_loop, parse_lines_outcome, Hshort.
Qed.

Lemma short_line_ends_the_run_witness :
  forallb has_columns (data_lines red_catalog) = false
  /\ main (sample_cluster red_catalog) (sample_args check_shard_count "3" "50gb")
     = raise IndexError.
Proof.
  split; [reflexivity |].
  exact (short_line_ends_the_run (sample_cluster red_catalog)
           (sample_args check_shard_count "3" "50gb") 3 50%float red_catalog
           eq_refl eq_refl eq_refl eq_refl eq_refl eq_refl).
Defined.

(** X17.  When the run reaches the evaluator and the evaluator returns, the
    run exits with 0 exactly when the returned list is empty, and it then
    prints the OK line of the action and nothing else. *)
Theorem ok_exactly_when_nothing_failed (world : Outside) (l : Namespace)
    (min_count : Z) (max_size_gb : PrimFloat.float) (raw : string)
    (records : list IndexRecord) (failed : list string) :
  py_int (min_shard_count l) = Some min_count ->
  parse_size (max_shard_size l) = Some max_size_gb ->
  create_default_context world (ca_file l) = Done tt ->
  defined (py_int (es_port l)) = true ->
  cat_indices world l = Done raw ->
  parse_index_info raw = ret records ->
  evaluate l records min_count max_size_gb = ret failed ->
  (failed = [] ->
   main world l
   = Run [ok_line (action l) (es_index l) min_count max_size_gb] (Exit NAGIOS_OK))
  /\ (ended (main world l) = Exit NAGIOS_OK -> failed = []).
Proof.
  intros Hmin Hmax Htls Hport Hcat Hparse Heval.
  rewrite (main_from_catalog world l min_count max_size_gb raw) by assumption.
  rewrite Hparse, bind_ret, Heval, bind_ret. unfold report. split.
  - now intros ->.
  - destruct failed; [reflexivity | discriminate].
Qed.

Lemma ok_exactly_when_nothing_failed_witness :
  evaluate (sample_args check_shard_size "3" "200gb") sample_rows 3 200%float = ret []
  /\ main (sample_cluster sample_catalog) (sample_args check_shard_size "3" "200gb")
     = Run [ok_line check_shard_size "logs-*" 3 200%float] (Exit NAGIOS_OK).
Proof.
  split; [reflexivity |].
  exact (proj1 (ok_exactly_when_nothing_failed (sample_cluster sample_catalog)
                  (sample_args check_shard_size "3" "200gb") 3 200%float
                  sample_catalog sample_rows []
                  eq_refl eq_refl eq_refl eq_refl eq_refl eq_refl eq_refl)
               eq_refl).
Defined.

(** X18.  End to end, on a catalog whose lines all have their columns and
    whose rows are well formed for the action, the run is the report on the
    rows that fail the active threshold, taken in the order of the catalog:
    the parser, the evaluator and the report compose without loss. *)
Theorem run_reports_failing_rows (world : Outside) (l : Namespace)
    (min_count : Z) (max_size_gb : PrimFloat.float) (raw : string) :
  py_int (min_shard_count l) = Some min_count ->
  parse_size (max_shard_size l) = Some max_size_gb ->
  create_default_context world (ca_file l) = Done tt ->
  defined (py_int (es_port l)) = true ->
  cat_indices world l = Done raw ->
  forallb has_columns (data_lines raw) = true ->
  (match action l with
   | check_shard_size =>
       forallb (fun r => defined (avg_shard_size_gb r)) (map row_of (data_lines raw))
   | check_shard_count =>
       forallb (fun r => defined (shard_count r)) (map row_of (data_lines raw))
   end) = true ->
  main world l
  = report l min_count max_size_gb
      (map index
         (filter (match action l with
                  | check_shard_size => too_big max_size_gb
                  | check_shard_count => too_few min_count
                  end)
                 (map row_of (data_lines raw)))).
Proof.
  intros Hmin Hmax Htls Hport Hcat Hcols Hwf.
  rewrite (main_from_catalog world l min_count max_size_gb raw) by assumption.
  rewrite data_lines_columns in Hcols.
  rewrite parse_index_info_loop, parse_lines_outcome, Hcols, bind_ret.
  cbn [app]. fold (data_lines raw).
  unfold evaluate, confirm_es_shard_size, confirm_es_shard_count.
  destruct (action l).
  - rewrite (for_in_collect _ _ (too_big max_size_gb) index);
      [now rewrite bind_ret |].
    intros r acc Hin. apply size_body.
    exact (proj1 (forallb_forall _ _) Hwf r Hin).
  - rewrite (for_in_collect _ _ (too_few min_count) index);
      [now rewrite bind_ret |].
    intros r acc Hin. apply count_body.
    exact (proj1 (forallb_forall _ _) Hwf r Hin).
Qed.

Lemma run_reports_failing_rows_witness :
  forallb has_columns (data_lines sample_catalog) = true
  /\ main (sample_cluster sample_catalog) (sample_args check_shard_size "3" "1gb")
     = Run [critical_line check_shard_size 3 1%float ["logs-a"; "logs-b"]]
           (Exit NAGIOS_CRITICAL).
Proof.
  split; [reflexivity |].
  exact (run_reports_failing_rows (sample_cluster sample_catalog)
           (sample_args check_shard_size "3" "1gb") 3 1%float sample_catalog
           eq_refl eq_refl eq_refl eq_refl eq_refl eq_refl eq_refl).
Defined.

Lemma run_end_main (world : Outside) (l : Namespace) : run_end (main world l).
Proof.
  rewrite main_steps.
  repeat (apply run_end_bind;
          [auto using silent_parse_index_info, guarded_evaluate with runs
          | intros ?]).
  apply run_end_report.
Qed.

(** X19.  A run calls [print] at most once, and not at all exactly when an
    exception escapes; the status the process ends with is 0, 1 or 2, and
    it is 1 exactly when an exception escapes. *)
Theorem run_prints_one_message_at_most (world : Outside) (l : Namespace) :
  (List.length (stdout (main world l)) <= 1)%nat
  /\ (stdout (main world l) = [] <-> exists e, main world l = raise e)
  /\ (exit_status (ended (main world l)) = 0
      \/ exit_status (ended (main world l)) = 1
      \/ exit_status (ended (main world l)) = 2)
  /\ (exit_status (ended (main world l)) = 1 <-> exists e, main world l = raise e).
Proof.
  destruct (run_end_main world l) as [shown _ | shown _ | token | e]; simpl.
  - split; [lia |]. split; [split; [discriminate | intros [e H]; discriminate] |].
    split; [now left |]. split; [discriminate | intros [e H]; discriminate].
  - split; [lia |]. split; [split; [discriminate | intros [e H]; discriminate] |].
    split; [now right; right |]. split; [discriminate | intros [e H]; discriminate].
  - split; [lia |]. split; [split; [discriminate | intros [e H]; discriminate] |].
    split; [now right; right |]. split; [discriminate | intros [e H]; discriminate].
  - split; [lia |]. split; [split; eauto |].
    split; [now right; left |]. split; eauto.
Qed.

(** ** What the size check and the skip test can do *)

Lemma parses_with_b (s : string) :
  Str.endswith s "b" = true ->
  (exists x, get_gb_size_from_string s = ret x)
  \/ get_gb_size_from_string s = raise ValueError.
Proof.
  rewrite <- recognized_b. unfold recognized, get_gb_size_from_string, float.
  repeat match goal with
         | |- context [if Str.endswith s ?u then _ else _] =>
             destruct (Str.endswith s u);
             [intros _;
              match goal with
              | |- context [py_float ?t] =>
                  destruct (py_float t); [left; rewrite bind_ret; eauto | now right]
              end |]
         end.
  discriminate.
Qed.

Lemma for_in_outcome {A S} (xs : list A) (body : A -> S -> M S)
    (stop : M S -> Prop) :
  (forall x s, In x xs -> (exists s', body x s = ret s') \/ stop (body x s)) ->
  (forall m k, stop m -> bind m k = m) ->
  forall s, (exists s', for_in xs body s = ret s') \/ stop (for_in xs body s).
Proof.
  intros Hbody Hstop. induction xs as [| x xs IH]; intros s; simpl; [eauto |].
  destruct (Hbody x s (or_introl eq_refl)) as [[s' ->] | Hx].
  - rewrite bind_ret. apply IH. intros; apply Hbody; now right.
  - right. now rewrite Hstop.
Qed.

(** X20.  The size check ends in one of five ways and no other: it returns
    a list of names; it raises [ValueError] (a count that is not an
    integer, or a numeric portion that [float()] refuses),
    [ZeroDivisionError] (a count of 0) or [OverflowError] (a count too big
    for a float); or it prints the error line for the size token of one of
    its rows and exits with the CRITICAL status. *)
Theorem size_check_outcomes (es_host es_port : string)
    (records : list IndexRecord) (max_size_gb : PrimFloat.float) :
  (exists names,
     confirm_es_shard_size es_host es_port records max_size_gb = ret names)
  \/ confirm_es_shard_size es_host es_port records max_size_gb = raise ValueError
  \/ confirm_es_shard_size es_host es_port records max_size_gb
     = raise ZeroDivisionError
  \/ confirm_es_shard_size es_host es_port records max_size_gb
     = raise OverflowError
  \/ (exists r, In r records
                /\ confirm_es_shard_size es_host es_port records max_size_gb
                   = Run [refusal (pri_store_size r)] (Exit NAGIOS_CRITICAL)).
Proof.
  unfold confirm_es_shard_size.
  apply (for_in_outcome records _
           (fun m => m = raise ValueError \/ m = raise ZeroDivisionError
                     \/ m = raise OverflowError
                     \/ exists r, In r records
                                  /\ m = Run [refusal (pri_store_size r)]
                                             (Exit NAGIOS_CRITICAL))).
  - intros r acc Hin. unfold int.
    destruct (py_int (pri r)) as [n |]; [rewrite bind_ret | now right; left].
    destruct (Str.endswith (pri_store_size r) "b") eqn:Hb.
    + destruct (parses_with_b _ Hb) as [[x ->] | ->]; [| now right; left].
      rewrite bind_ret. unfold truediv.
      destruct (float_of_int n); [| now right; right; right; left].
      destruct (n =? 0); [now right; right; left |].
      rewrite bind_ret. left. destruct (gt _ _); eauto.
    + rewrite (refuses_without_b _ Hb). right. right. right. right.
      exists r. now split.
  - intros m k [-> | [-> | [-> | (r & _ & ->)]]]; reflexivity.
Qed.

Lemma prefix_split (sub s : string) :
  String.prefix sub s = true <-> exists b, s = sub ++ b.
Proof.
  revert s. induction sub as [| c sub IH]; intros s.
  - split; [intros _; now exists s | now destruct s].
  - destruct s as [| d s]; simpl.
    + split; [discriminate | intros [b H]; discriminate].
    + destruct (ascii_dec c d) as [-> | Hcd].
      * split.
        -- intros H. apply IH in H as [b ->]. now exists b.
        -- intros [b H]. inversion H. apply IH. now exists b.
      * split; [discriminate | intros [b H]; inversion H; congruence].
Qed.

Lemma contains_split (sub s : string) :
  Str.contains sub s = true <-> exists a b, s = a ++ sub ++ b.
Proof.
  induction s as [| c s IH]; cbn [Str.contains].
  - destruct (String.prefix sub EmptyString) eqn:Hp.
    + apply prefix_split in Hp as [b Hb]. split; [intros _ | reflexivity].
      now exists EmptyString, b.
    + split; [discriminate |]. intros (a & b & H).
      destruct a; [| discriminate]. cbn [String.append] in H.
      assert (String.prefix sub EmptyString = true)
        by (apply prefix_split; eauto). congruence.
  - destruct (String.prefix sub (String c s)) eqn:Hp.
    + apply prefix_split in Hp as [b Hb]. split; [intros _ | reflexivity].
      now exists EmptyString, b.
    + rewrite IH. split.
      * intros (a & b & ->). now exists (String c a), b.
      * intros (a & b & H). destruct a as [| d a]; cbn [String.append] in H.
        -- assert (String.prefix sub (String c s) = true)
             by (apply prefix_split; eauto). congruence.
        -- inversion H. eauto.
Qed.

(** The skip test in terms of the parts of the line. *)
Lemma skipped_split (line : string) :
  skipped line = true
  <-> line = EmptyString
      \/ (exists a b, line = a ++ " index " ++ b)
      \/ (exists a b, line = a ++ " close " ++ b).
Proof.
  unfold skipped. rewrite !orb_true_iff, String.eqb_eq, !contains_split. tauto.
Qed.

Lemma split_on_single (s : string) :
  newline_free s = true -> Str.split_on newline s = [s].
Proof.
  unfold newline_free. induction s as [| c s IH]; simpl; [reflexivity |].
  intros H. apply andb_true_iff in H as [Hc Hs]. apply negb_true_iff in Hc.
  now rewrite Hc, (IH Hs).
Qed.

(** X21.  For a text of one line, the parser returns no row exactly when
    the line is empty or the text " index " or " close " stands somewhere in
    it, in whichever column; and such a line can be taken out of a catalog
    without changing what the parser does with the catalog. *)
Theorem marked_lines_leave_no_row (line a b : string) :
  newline_free line = true ->
  (parse_index_info line = ret []
   <-> line = EmptyString
       \/ (exists x y, line = x ++ " index " ++ y)
       \/ (exists x y, line = x ++ " close " ++ y))
  /\ (parse_index_info line = ret [] ->
      parse_index_info (a ++ String newline (line ++ String newline b))
        = parse_index_info (a ++ String newline b)).
Proof.
  intros Hline.
  assert (Hone : parse_index_info line = ret [] <-> skipped line = true).
  { rewrite parse_index_info_loop, (split_on_single line Hline), parse_lines_outcome.
    cbn [forallb filter]. destruct (skipped line); simpl.
    - split; reflexivity.
    - destruct (has_columns line); simpl; split; discriminate. }
  split; [now rewrite Hone, skipped_split |].
  intros Hnone. apply Hone in Hnone.
  rewrite !parse_index_info_loop, !split_on_app, (split_on_single line Hline).
  rewrite !parse_lines_outcome, !forallb_app, !filter_app.
  cbn [forallb filter]. rewrite Hnone. reflexivity.
Qed.

Lemma marked_lines_leave_no_row_witness :
  newline_free "       close  logs-c" = true
  /\ parse_index_info "       close  logs-c" = ret []
  /\ parse_index_info
       (red_catalog ++ String newline ("       close  logs-c" ++ String newline zero_catalog))
     = parse_index_info (red_catalog ++ String newline zero_catalog).
Proof.
  destruct (marked_lines_leave_no_row "       close  logs-c" red_catalog zero_catalog
              eq_refl) as [Hiff Hout].
  split; [reflexivity |]. split; [reflexivity | exact (Hout eq_refl)].
Defined.

(** ** Violations and the report *)

Lemma filter_some {A} (p : A -> bool) (xs : list A) :
  existsb p xs = true -> filter p xs <> [].
Proof.
  induction xs as [| x xs IH]; simpl; [discriminate |].
  destruct (p x); [discriminate | exact IH].
Qed.

(** C8, amended.  When both bounds are accepted, the catalog arrives, every
    line that is not skipped has its eight fields and the rows are well
    formed for the action, then as soon as one row violates the active
    threshold the script prints the CRITICAL message for the violating rows
    and exits with 2.  With one violating row the message is formatted with
    its name; with two or more it is formatted with their number and with
    their names joined by ", ". *)
Theorem violations_are_critical (world : Outside) (l : Namespace)
    (min_count : Z) (max_size_gb : PrimFloat.float) (raw : string) :
  py_int (min_shard_count l) = Some min_count ->
  parse_size (max_shard_size l) = Some max_size_gb ->
  create_default_context world (ca_file l) = Done tt ->
  defined (py_int (es_port l)) = true ->
  cat_indices world l = Done raw ->
  forallb has_columns (data_lines raw) = true ->
  forallb (well_formed_for (action l)) (catalog_rows raw) = true ->
  existsb (violates (action l) min_count max_size_gb) (catalog_rows raw) = true ->
  let failed :=
    map index (filter (violates (action l) min_count max_size_gb)
                      (catalog_rows raw)) in
  let shown := critical_line (action l) min_count max_size_gb failed in
  failed <> []
  /\ main world l = Run [shown] (Exit NAGIOS_CRITICAL)
  /\ String.prefix "CRITICAL: " (template shown) = true
  /\ (forall name, failed = [name] -> In (ArgStr name) (args shown))
  /\ ((2 <= List.length failed)%nat ->
      In (ArgInt (len failed)) (args shown)
      /\ In (ArgStr (Str.join ", " failed)) (args shown)).
Proof.
  intros Hmin Hmax Htls Hport Hcat Hcols Hwf Hsome failed shown.
  assert (Hfailed : failed <> []).
  { subst failed. intros Hnil. apply map_eq_nil in Hnil.
    now apply (filter_some _ _ Hsome). }
  split; [exact Hfailed |]. split; [| split; [| split]].
  - rewrite (main_from_catalog world l min_count max_size_gb raw) by assumption.
    rewrite data_lines_columns in Hcols.
    rewrite parse_index_info_loop, parse_lines_outcome, Hcols, bind_ret.
    cbn [app]. fold (data_lines raw). fold (catalog_rows raw).
    assert (Heval : evaluate l (catalog_rows raw) min_count max_size_gb = ret failed).
    { subst failed. unfold evaluate, violates, well_formed_for in *.
      unfold confirm_es_shard_size, confirm_es_shard_count.
      destruct (action l).
      - rewrite (for_in_collect _ _ (too_big max_size_gb) index); [reflexivity |].
        intros r acc Hin. apply size_body.
        exact (proj1 (forallb_forall _ _) Hwf r Hin).
      - rewrite (for_in_collect _ _ (too_few min_count) index); [reflexivity |].
        intros r acc Hin. apply count_body.
        exact (proj1 (forallb_forall _ _) Hwf r Hin). }
    rewrite Heval, bind_ret. unfold report.
    destruct failed; [contradiction | reflexivity].
  - subst shown. unfold critical_line.
    destruct (action l), failed as [| a [| b rest]]; reflexivity.
  - intros name Hname. subst shown. rewrite Hname. unfold critical_line.
    destruct (action l); simpl; auto.
  - intros Hlen. subst shown. unfold critical_line.
    destruct failed as [| a [| b rest]]; simpl in Hlen; try lia.
    destruct (action l); simpl; auto.
Qed.

Lemma violations_are_critical_witness :
  existsb (violates check_shard_count 3 50%float) (catalog_rows sample_catalog) = true
  /\ main (sample_cluster sample_catalog) (sample_args check_shard_count "3" "50gb")
     = Run [Fmt ("CRITICAL: %d indices have less primary shards then minimum shard count %d!"
                 ++ String newline "%s")
                [ArgInt 2; ArgInt 3; ArgStr "logs-a, logs-b"]]
           (Exit NAGIOS_CRITICAL)
  /\ main (sample_cluster sample_catalog) (sample_args check_shard_size "3" "50gb")
     = Run [Fmt "CRITICAL: Index %s has shards bigger than %s GB!"
                [ArgStr "logs-b"; ArgFloat 50%float]]
           (Exit NAGIOS_CRITICAL).
Proof.
  split; [reflexivity |]. split.
  - exact (proj1 (proj2 (violations_are_critical (sample_cluster sample_catalog)
                           (sample_args check_shard_count "3" "50gb") 3 50%float
                           sample_catalog
                           eq_refl eq_refl eq_refl eq_refl eq_refl eq_refl
                           eq_refl eq_refl))).
  - exact (proj1 (proj2 (violations_are_critical (sample_cluster sample_catalog)
                           (sample_args check_shard_size "3" "50gb") 3 50%float
                           sample_catalog
                           eq_refl eq_refl eq_refl eq_refl eq_refl eq_refl
                           eq_refl eq_refl))).
Defined.

(** C8 as stated fails on a catalog in which an index above the bound is
    followed by an open index whose size columns are blank: the first line
    gives a row that violates the threshold, the second makes the parser
    raise, and the run ends with [IndexError] and status 1 instead of the
    CRITICAL message. *)
Lemma violating_index_is_not_reported :
  Str.split_on newline mixed_catalog
    = ["green  open   logs-b   2   1        100      240gb          120gb 2020-01-02T00:00:00.000Z";
       red_catalog]
  /\ parse_index_info
       "green  open   logs-b   2   1        100      240gb          120gb 2020-01-02T00:00:00.000Z"
     = ret [Row "logs-b" "2" "120gb"]
  /\ too_big 50%float (Row "logs-b" "2" "120gb") = true
  /\ main (sample_cluster mixed_catalog) (sample_args check_shard_size "3" "50gb")
     = raise IndexError
  /\ exit_status (ended (main (sample_cluster mixed_catalog)
                              (sample_args check_shard_size "3" "50gb")))
     = NAGIOS_WARNING.
Proof. repeat split; reflexivity. Qed.
